(** * MeshGraphNets (PyTorch port): normalizer, graph builders, integrators

    A shallow embedding of [normalization.py], [cloth_model.py] and
    [deform_model.py].

    Conventions of the embedding.
    - Python exceptions are values of [Py.error]; a call that may raise
      returns a [Py.result]; a method that may also change its receiver
      returns the result together with the receiver afterwards.
    - float32 tensors are idealised: their elements are real numbers, so
      rounding, overflow and NaN are outside the model.  Tensors of rank
      0, 1 and 2 are the only ones the three files build.
    - Functions of the torch library are embedded by what the library
      does (broadcasting included).  A Python number is taken where torch
      takes one (the arithmetic operators, [torch.where],
      [fill_diagonal_]) and refused where torch refuses it: an argument
      of [torch.maximum] that is no tensor, a second positional argument
      of [Tensor.add], a method [torch.Size] does not have. *)

From Stdlib Require Import Reals Lra ZArith String.
From stdpp Require Import base list gmap strings.

(** ** Python: exceptions and results *)

Module Py.

Inductive error : Type :=
| TypeError
| KeyError (key : string)
| IndexError
| AttributeError
| AssertionError (msg : string)
| RuntimeError
| Exception (msg : string).

Inductive result (A : Type) : Type :=
| Ok (a : A)
| Err (e : error).

Arguments Ok {A} a.
Arguments Err {A} e.

#[global] Instance result_ret : MRet result := fun A a => Ok a.

#[global] Instance result_bind : MBind result :=
  fun A B f r => match r with Ok a => f a | Err e => Err e end.

#[global] Instance result_fmap : FMap result :=
  fun A B f r => match r with Ok a => Ok (f a) | Err e => Err e end.

(** [d[k]] on a dict *)
Definition getitem {V} (d : gmap string V) (k : string) : result V :=
  match d !! k with
  | Some v => Ok v
  | None => Err (KeyError k)
  end.

(** [l[i]] on a sequence, for a non-negative index *)
Definition item {A} (l : list A) (i : nat) : result A :=
  match l !! i with
  | Some x => Ok x
  | None => Err IndexError
  end.

Fixpoint traverse {A B} (f : A -> result B) (l : list A) : result (list B) :=
  match l with
  | [] => Ok []
  | x :: l' => y ← f x; ys ← traverse f l'; Ok (y :: ys)
  end.

(** Computations that read and write a state [S] and may raise: the
    state that is returned is the one reached when the exception left. *)
Definition stateful (S A : Type) : Type := S -> result A * S.

#[global] Instance stateful_ret {S} : MRet (stateful S) :=
  fun A a s => (Ok a, s).

#[global] Instance stateful_bind {S} : MBind (stateful S) :=
  fun A B f m s =>
    match m s with
    | (Ok a, s') => f a s'
    | (Err e, s') => (Err e, s')
    end.

(** a computation that only reads the state *)
Definition reading {S A} (f : S -> result A) : stateful S A :=
  fun s => (f s, s).

(** run a computation on one attribute of an object *)
Definition on_attr {S T A} (get : S -> T) (set : T -> S -> S)
    (m : stateful T A) : stateful S A :=
  fun s => let '(r, t) := m (get s) in (r, set t s).

(** a computation whose runs leave the state as they found it *)
Definition preserves {S A} (m : stateful S A) : Prop :=
  forall s, (m s).2 = s.

(** a computation whose runs all raise, with the state as they found it *)
Definition raises {S A} (m : stateful S A) : Prop :=
  forall s, exists e, m s = (Err e, s).

End Py.

(** ** torch: tensors of real numbers *)

Module torch.
Import Py.
Local Open Scope R_scope.

#[global] Instance Rlt_decision (x y : R) : Decision (x < y) := Rlt_dec x y.
#[global] Instance Req_decision : EqDecision R := Req_dec_T.

Inductive tensor : Type :=
| T0 (x : R)
| T1 (v : list R)
| T2 (m : list (list R)).

(** what a Python call site can pass *)
Inductive arg : Type :=
| ATensor (t : tensor)
| AFloat (x : R)
| ABool (b : bool)
| ANone.

Definition ncols {A} (m : list (list A)) : nat :=
  match m with
  | [] => 0%nat
  | r :: _ => length r
  end.

(** [t.size()]; a tensor without rows has no recorded number of columns *)
Definition size (t : tensor) : list nat :=
  match t with
  | T0 _ => []
  | T1 v => [length v]
  | T2 m => [length m; ncols m]
  end.

(** [s.tolist()] on a [torch.Size]: a [torch.Size] is a tuple, and a
    tuple has no method [tolist] *)
Definition Size_tolist (s : list nat) : result (list nat) :=
  Err AttributeError.

(** one dimension of broadcasting: equal sizes pair up, a size of one is
    repeated, anything else is a shape error *)
Definition broadcast {A B C} (f : A -> B -> result C)
    (xs : list A) (ys : list B) : result (list C) :=
  if decide (length xs = length ys) then
    traverse (fun p => f p.1 p.2) (zip xs ys)
  else
    match xs, ys with
    | [x], _ => traverse (f x) ys
    | _, [y] => traverse (fun x => f x y) xs
    | _, _ => Err RuntimeError
    end.

(** an elementwise binary operation, with broadcasting over ranks 0..2 *)
Definition pointwise (f : R -> R -> R) (a b : tensor) : result tensor :=
  let f1 := broadcast (fun x y => Ok (f x y)) in
  let f2 := broadcast f1 in
  match a, b with
  | T0 x, T0 y => Ok (T0 (f x y))
  | T0 x, T1 v => Ok (T1 (map (f x) v))
  | T1 u, T0 y => Ok (T1 (map (fun x => f x y) u))
  | T0 x, T2 m => Ok (T2 (map (map (f x)) m))
  | T2 m, T0 y => Ok (T2 (map (map (fun x => f x y)) m))
  | T1 u, T1 v => T1 <$> f1 u v
  | T1 u, T2 m => T2 <$> f2 [u] m
  | T2 m, T1 v => T2 <$> f2 m [v]
  | T2 m, T2 n => T2 <$> f2 m n
  end.

Definition add := pointwise Rplus.
Definition sub := pointwise Rminus.
Definition mul := pointwise Rmult.
Definition div := pointwise Rdiv.

(** [torch.maximum(input, other)]: both have to be tensors; a Python
    number in the place of [other] is a [TypeError] *)
Definition maximum (input : tensor) (other : arg) : result tensor :=
  match other with
  | ATensor t => pointwise Rmax input t
  | _ => Err TypeError
  end.

Definition tmap (f : R -> R) (t : tensor) : tensor :=
  match t with
  | T0 x => T0 (f x)
  | T1 v => T1 (map f v)
  | T2 m => T2 (map (map f) m)
  end.

(** [t ** 2] *)
Definition square (t : tensor) : tensor := tmap (fun x => x ^ 2) t.

(** [torch.sqrt(t)], exact where no entry is negative.  The root of a
    negative entry is NaN in torch and 0 in [R_sqrt.sqrt]; the one call
    of [torch.sqrt], in [_std_with_epsilon], comes after a statement
    that raises, and no property below rests on its value. *)
Definition sqrt (t : tensor) : tensor := tmap R_sqrt.sqrt t.

Definition zeros (n : nat) : tensor := T1 (replicate n 0).

Definition total (v : list R) : R := foldr Rplus 0 v.

(** [torch.sum(t, dim=0)] *)
Definition sum_dim0 (t : tensor) : tensor :=
  match t with
  | T0 x => T0 x
  | T1 v => T0 (total v)
  | T2 m => T1 (foldr (zip_with Rplus) (replicate (ncols m) 0) m)
  end.

(** [bool(t < s)]: only a tensor of one element has a truth value *)
Definition lt_truth (t : tensor) (s : R) : result bool :=
  match t with
  | T0 x | T1 [x] | T2 [[x]] => Ok (bool_decide (x < s))
  | _ => Err RuntimeError
  end.

(** [bool(a)] for an argument *)
Definition truthy (a : arg) : result bool :=
  match a with
  | ABool b => Ok b
  | ANone => Ok false
  | AFloat x => Ok (bool_decide (x <> 0))
  | ATensor (T0 x) | ATensor (T1 [x]) | ATensor (T2 [[x]]) =>
      Ok (bool_decide (x <> 0))
  | ATensor _ => Err RuntimeError
  end.

(** what the per-step input mapping holds: float tensors (positions) and
    integer tensors of rank 2 (node types, cells) *)
Inductive value : Type :=
| Float (t : tensor)
| Int (rows : list (list Z)).

Definition as_float (v : value) : result tensor :=
  match v with
  | Float t => Ok t
  | Int _ => Err TypeError
  end.

Definition as_int (v : value) : result (list (list Z)) :=
  match v with
  | Int rows => Ok rows
  | Float _ => Err TypeError
  end.

(** [t[:, 0]] *)
Definition column0 {A} (rows : list (list A)) : result (list A) :=
  traverse (fun row => item row 0) rows.

(** column [j] of a tensor of rank 2 *)
Definition column {A} (j : nat) (rows : list (list A)) : list A :=
  omap (fun row => row !! j) rows.

(** [F.one_hot(t, num_classes)]: class values outside
    [0, num_classes) are refused *)
Definition one_hot (t : list Z) (num_classes : nat) : result tensor :=
  T2 <$> traverse (fun z : Z =>
           if decide (0 <= z < Z.of_nat num_classes)%Z then
             Ok (map (fun j => if decide (j = Z.to_nat z) then 1 else 0)
                     (seq 0 num_classes))
           else Err RuntimeError) t.

(** [torch.cat((a, b), dim=-1)] *)
Definition cat2 (a b : tensor) : result tensor :=
  match a, b with
  | T1 u, T1 v => Ok (T1 (u ++ v))
  | T2 m, T2 n =>
      if decide (length m = length n) then Ok (T2 (zip_with app m n))
      else Err RuntimeError
  | _, _ => Err RuntimeError
  end.

Definition cat (ts : list tensor) : result tensor :=
  match ts with
  | [] => Err RuntimeError
  | t :: ts' => foldl (fun acc t' => a ← acc; cat2 a t') (Ok t) ts'
  end.

(** [torch.index_select(t, 0, index)] *)
Definition index_select (t : tensor) (index : list nat) : result tensor :=
  match t with
  | T0 _ => Err IndexError
  | T1 v => T1 <$> traverse (item v) index
  | T2 m => T2 <$> traverse (item m) index
  end.

Definition norm2 (r : list R) : R :=
  R_sqrt.sqrt (total (map (fun x => x ^ 2) r)).

(** [torch.norm(t, dim=-1, keepdim=keepdim)] *)
Definition norm (t : tensor) (keepdim : bool) : tensor :=
  match t with
  | T0 x => T0 (Rabs x)
  | T1 v => if keepdim then T1 [norm2 v] else T0 (norm2 v)
  | T2 m => if keepdim then T2 (map (fun r => [norm2 r]) m)
            else T1 (map norm2 m)
  end.

Definition zeros_like (t : tensor) : tensor := tmap (fun _ => 0) t.

(** the Euclidean distance of two points *)
Definition euclid (a b : list R) : R := norm2 (zip_with Rminus a b).

(** [torch.cdist(x, y, p=2)]: all pairwise Euclidean distances *)
Definition cdist (x y : tensor) : result (list (list R)) :=
  match x, y with
  | T2 a, T2 b => Ok (map (fun p => map (euclid p) b) a)
  | _, _ => Err RuntimeError
  end.

Definition as_rows (t : tensor) : list (list R) :=
  match t with
  | T0 x => [[x]]
  | T1 v => [v]
  | T2 m => m
  end.

(** [torch.where(cond, a, b)] for a condition of rank 2 *)
Definition where_ (cond : list (list bool)) (a b : tensor)
    : result (list (list R)) :=
  picked ← broadcast (broadcast (fun (c : bool) (x : R) => Ok (c, x)))
             cond (as_rows a);
  broadcast (broadcast (fun (cx : bool * R) (y : R) =>
                          Ok (if cx.1 then cx.2 else y)))
    picked (as_rows b).

(** [m.fill_diagonal_(x)] *)
Definition fill_diagonal_ (m : list (list R)) (x : R) : list (list R) :=
  imap (fun i row => <[i := x]> row) m.

Fixpoint put_all (m : list (list R)) (pairs : list (nat * nat)) (x : R)
    : result (list (list R)) :=
  match pairs with
  | [] => Ok m
  | (i, j) :: pairs' =>
      row ← item m i;
      _ ← item row j;
      put_all (<[i := <[j := x]> row]> m) pairs' x
  end.

(** [m[rows, cols] = x]: the two index tensors are broadcast together and
    every addressed entry must exist *)
Definition setitem (m : list (list R)) (rows cols : list nat) (x : R)
    : result (list (list R)) :=
  pairs ← broadcast (fun i j => Ok (i, j)) rows cols;
  put_all m pairs x.

(** [torch.stack([v] * n, dim=1)]: entry [i][j] is [v[i]]; an empty list
    of tensors cannot be stacked *)
Definition stack_copies_dim1 {A} (v : list A) (n : nat)
    : result (list (list A)) :=
  if decide (n = 0%nat) then Err RuntimeError
  else Ok (map (replicate n) v).

(** [torch.transpose(m, 0, 1)] *)
Definition transpose {A} (m : list (list A)) : list (list A) :=
  map (fun j => column j m) (seq 0 (ncols m)).

(** [torch.nonzero(m, as_tuple=True)], as the list of index pairs in
    row-major order *)
Definition nonzero (m : list (list R)) : list (nat * nat) :=
  concat (imap (fun i row =>
            omap (fun o : option (nat * nat) => o)
                 (imap (fun j x =>
                          if decide (x = 0) then None else Some (i, j))
                       row)) m).

(** [Tensor.add]: what the call returns (or raises) and what the
    receiver holds afterwards.  The method is library code; the models
    below are stated for every behaviour of it, and [documented_add] is
    the behaviour PyTorch documents. *)
Class TensorAdd : Type :=
  Tensor_add : tensor -> list arg -> result tensor * tensor.

(** [t.add(other)] takes one positional argument, a tensor or a number,
    and returns a new tensor [t + other]; a second positional argument
    is a [TypeError].  The receiver is left alone ([add_], with the
    underscore, is the method that writes into the receiver). *)
Definition documented_add : TensorAdd :=
  fun self args =>
    (match args with
     | [ATensor other] => add self other
     | [AFloat other] => add self (T0 other)
     | _ => Err TypeError
     end, self).

(** entry [i][j] of a tensor of rank 2, and the tensors of a given shape *)
Definition entry {A} (m : list (list A)) (i j : nat) : option A :=
  m !! i ≫= fun row => row !! j.

Definition shape {A} (rows cols : nat) (m : list (list A)) : Prop :=
  length m = rows /\ Forall (fun r => length r = cols) m.

End torch.

(** ** normalization.py *)

Module normalization.
Import Py torch.
Local Open Scope R_scope.

Record Normalizer : Type := {
  _max_accumulations : Z;
  _std_epsilon : R;
  _acc_count : tensor;
  _num_accumulations : tensor;
  _acc_sum : tensor;
  _acc_sum_squared : tensor
}.

Definition default_max_accumulations : Z := 10 ^ 6.
Definition default_std_epsilon : R := 1e-8.

Definition __init__ (size : nat) (max_accumulations : Z) (std_epsilon : R)
    : Normalizer :=
  {| _max_accumulations := max_accumulations;
     _std_epsilon := std_epsilon;
     _acc_count := zeros 1;
     _num_accumulations := zeros 1;
     _acc_sum := zeros size;
     _acc_sum_squared := zeros size |}.

Definition set_acc_count (t : tensor) (self : Normalizer) : Normalizer :=
  {| _max_accumulations := _max_accumulations self;
     _std_epsilon := _std_epsilon self;
     _acc_count := t;
     _num_accumulations := _num_accumulations self;
     _acc_sum := _acc_sum self;
     _acc_sum_squared := _acc_sum_squared self |}.

Definition set_num_accumulations (t : tensor) (self : Normalizer)
    : Normalizer :=
  {| _max_accumulations := _max_accumulations self;
     _std_epsilon := _std_epsilon self;
     _acc_count := _acc_count self;
     _num_accumulations := t;
     _acc_sum := _acc_sum self;
     _acc_sum_squared := _acc_sum_squared self |}.

Definition set_acc_sum (t : tensor) (self : Normalizer) : Normalizer :=
  {| _max_accumulations := _max_accumulations self;
     _std_epsilon := _std_epsilon self;
     _acc_count := _acc_count self;
     _num_accumulations := _num_accumulations self;
     _acc_sum := t;
     _acc_sum_squared := _acc_sum_squared self |}.

Definition set_acc_sum_squared (t : tensor) (self : Normalizer)
    : Normalizer :=
  {| _max_accumulations := _max_accumulations self;
     _std_epsilon := _std_epsilon self;
     _acc_count := _acc_count self;
     _num_accumulations := _num_accumulations self;
     _acc_sum := _acc_sum self;
     _acc_sum_squared := t |}.

(** [torch.maximum(self._acc_count, 1.)]: the second argument is the
    Python float [1.] *)
Definition _mean (self : Normalizer) : result tensor :=
  safe_count ← maximum (_acc_count self) (AFloat 1);
  div (_acc_sum self) safe_count.

(** [self._std_epsilon] is a Python float as well *)
Definition _std_with_epsilon (self : Normalizer) : result tensor :=
  safe_count ← maximum (_acc_count self) (AFloat 1);
  mean_sq ← div (_acc_sum_squared self) safe_count;
  mean ← _mean self;
  var ← sub mean_sq (square mean);
  let std := sqrt var in
  maximum std (AFloat (_std_epsilon self)).

Section methods.
Context {library_add : TensorAdd}.

(** [self.<attr>.add(args)] as a statement: the value is dropped *)
Definition add_on (get : Normalizer -> tensor)
    (set : tensor -> Normalizer -> Normalizer)
    (args : Normalizer -> list arg) : stateful Normalizer unit :=
  fun self =>
    let '(r, t) := Tensor_add (get self) (args self) in
    ((fun _ => tt) <$> r, set t self).

(** the first statement is
    [dimension = len(batched_data.size().tolist())] *)
Definition _accumulate (batched_data : tensor) : stateful Normalizer unit :=
  dimension ← reading (fun _ =>
                 length <$> Size_tolist (size batched_data));
  let count := T0 (INR dimension) in
  let data_sum := sum_dim0 batched_data in
  let squared_data_sum := sum_dim0 (square batched_data) in
  _ ← add_on _acc_sum set_acc_sum
        (fun self => [ATensor (_acc_sum self); ATensor data_sum]);
  _ ← add_on _acc_sum_squared set_acc_sum_squared
        (fun self => [ATensor (_acc_sum_squared self);
                      ATensor squared_data_sum]);
  _ ← add_on _acc_count set_acc_count
        (fun self => [ATensor (_acc_count self); ATensor count]);
  add_on _num_accumulations set_num_accumulations
        (fun self => [ATensor (_num_accumulations self); AFloat 1]).

Definition __call__ (batched_data : tensor) (accumulate : arg)
    : stateful Normalizer tensor :=
  go ← reading (fun self =>
          a ← truthy accumulate;
          if a : bool then
            lt_truth (_num_accumulations self)
                     (IZR (_max_accumulations self))
          else Ok false);
  _ ← (if go : bool then _accumulate batched_data else mret tt);
  reading (fun self =>
    mean ← _mean self;
    centred ← sub batched_data mean;
    std ← _std_with_epsilon self;
    div centred std).

(** a call through Python's argument binding for
    [__call__(self, batched_data, accumulate=True)]: one or two
    positional arguments, the first of them a tensor at every call site;
    none, or more than two, is a [TypeError] *)
Definition call (args : list arg) : stateful Normalizer tensor :=
  match args with
  | [ATensor batched_data] => __call__ batched_data (ABool true)
  | [ATensor batched_data; accumulate] => __call__ batched_data accumulate
  | _ => fun self => (Err TypeError, self)
  end.

End methods.

Definition inverse (self : Normalizer) (normalized_batch_data : tensor)
    : result tensor :=
  std ← _std_with_epsilon self;
  scaled ← mul normalized_batch_data std;
  mean ← _mean self;
  add scaled mean.

End normalization.

(** ** The message-passing cores

    [encode_process_decode] and its four variants are modules of the
    repository that the three files only import.  What the models take
    from them is embedded here: the modules themselves as values, and
    the [EdgeSet] tuple. *)

Module core.
Import torch.

Inductive module : Type :=
| encode_process_decode
| encode_process_decode_max_pooling
| encode_process_decode_lstm
| encode_process_decode_graph_structure_watcher
| encode_process_decode_hub.

#[global] Instance module_eq_dec : EqDecision module.
Proof. solve_decision. Defined.

Record EdgeSet : Type := {
  name : string;
  features : tensor;
  receivers : list nat;
  senders : list nat
}.

(** entries of the [params] dict: [params['size']] is an integer,
    [params['model']] a module, known by its [__name__] *)
Inductive param : Type :=
| PInt (z : Z)
| PModule (module_name : string).

Definition __name__ (p : param) : Py.result string :=
  match p with
  | PModule n => Py.Ok n
  | PInt _ => Py.Err Py.AttributeError
  end.

End core.

(** ** torch.save and torch.load

    The file system is taken as a map from paths to the objects pickled
    under them; directories, permissions and the bytes of the pickle are
    outside the model.  A model saves and loads two kinds of objects,
    normalizers and learned models. *)

Module serialization.
Import normalization.

Inductive object (L : Type) : Type :=
| ONormalizer (n : Normalizer)
| OLearned (l : L).

Arguments ONormalizer {L} n.
Arguments OLearned {L} l.

(** [torch.save(obj, path)] *)
Definition save {L} (obj : object L) (path : string)
    (fs : gmap string (object L)) : gmap string (object L) :=
  <[path := obj]> fs.

(** how a sequence of [self.attr = torch.load(path)] statements ends.
    An attribute of the embedded model holds a normalizer or a learned
    model by its type; a file holding the other kind ends the sequence
    with [WrongKind] here, where Python would assign the object. *)
Inductive outcome : Type :=
| Loaded
| FileNotFoundError (path : string)
| WrongKind (path : string).

(** statements that load into an object [S], run in order; the first
    that fails ends the run, with the assignments made so far kept *)
Definition loading (S : Type) : Type := S -> outcome * S.

Definition and_then {S} (first next : loading S) : loading S :=
  fun s =>
    match first s with
    | (Loaded, s') => next s'
    | failed => failed
    end.

(** [self.attr = torch.load(path)] for a normalizer attribute *)
Definition load_normalizer {S L} (fs : gmap string (object L))
    (path : string) (set : Normalizer -> S -> S) : loading S :=
  fun s =>
    match fs !! path with
    | Some (ONormalizer n) => (Loaded, set n s)
    | Some (OLearned _) => (WrongKind path, s)
    | None => (FileNotFoundError path, s)
    end.

(** [self.attr = torch.load(path)] for the learned model *)
Definition load_learned {S L} (fs : gmap string (object L))
    (path : string) (set : L -> S -> S) : loading S :=
  fun s =>
    match fs !! path with
    | Some (OLearned l) => (Loaded, set l s)
    | Some (ONormalizer _) => (WrongKind path, s)
    | None => (FileNotFoundError path, s)
    end.

End serialization.

(** ** cloth_model.py *)

Module cloth_model.
Import Py torch normalization core.
Local Open Scope string_scope.

Inductive graph : Type :=
| MultiGraph (node_features : tensor) (edge_sets : list EdgeSet)
| MultiGraphWithPos (node_features : tensor) (edge_sets : list EdgeSet)
    (world_pos mesh_pos : tensor).

Record Model : Type := {
  _params : gmap string param;
  _output_normalizer : Normalizer;
  _node_normalizer : Normalizer;
  _edge_normalizer : Normalizer;
  core_model_name : string;
  core_model : module;
  message_passing_steps : Z;
  message_passing_aggregator : string;
  learned_model : graph -> result tensor
}.

Definition set_node_normalizer (n : Normalizer) (self : Model) : Model :=
  {| _params := _params self;
     _output_normalizer := _output_normalizer self;
     _node_normalizer := n;
     _edge_normalizer := _edge_normalizer self;
     core_model_name := core_model_name self;
     core_model := core_model self;
     message_passing_steps := message_passing_steps self;
     message_passing_aggregator := message_passing_aggregator self;
     learned_model := learned_model self |}.

Definition set_edge_normalizer (n : Normalizer) (self : Model) : Model :=
  {| _params := _params self;
     _output_normalizer := _output_normalizer self;
     _node_normalizer := _node_normalizer self;
     _edge_normalizer := n;
     core_model_name := core_model_name self;
     core_model := core_model self;
     message_passing_steps := message_passing_steps self;
     message_passing_aggregator := message_passing_aggregator self;
     learned_model := learned_model self |}.

Definition select_core_model (core_model_name : string) : module :=
  default encode_process_decode
    (({[ "encode_process_decode" := encode_process_decode;
         "encode_process_decode_graph_structure_watcher" :=
           encode_process_decode_graph_structure_watcher;
         "encode_process_decode_hub" := encode_process_decode_hub;
         "encode_process_decode_max_pooling" :=
           encode_process_decode_max_pooling;
         "encode_process_decode_lstm" := encode_process_decode_lstm ]}
      : gmap string module) !! core_model_name).

Section model.
Context {library_add : TensorAdd}.

(** [common.NodeType.SIZE] and [common.triangles_to_edges]: [common] is
    not among the three files *)
Variable NodeType_SIZE : nat.
Variable triangles_to_edges : value -> result (list nat * list nat).

(** [core_model.EncodeProcessDecode(output_size, latent_size, num_layers,
    message_passing_steps, message_passing_aggregator)] *)
Variable EncodeProcessDecode :
  module -> param -> Z -> Z -> Z -> string -> result (graph -> result tensor).

Definition __init__ (params : gmap string param) (core_model_name : string)
    (message_passing_aggregator : string) (message_passing_steps : Z)
    : result Model :=
  let core_model := select_core_model core_model_name in
  output_size ← getitem params "size";
  learned ← EncodeProcessDecode core_model output_size 128 2
              message_passing_steps message_passing_aggregator;
  Ok {| _params := params;
        _output_normalizer :=
          normalization.__init__ 3 default_max_accumulations
            default_std_epsilon;
        _node_normalizer :=
          normalization.__init__ (3 + NodeType_SIZE)
            default_max_accumulations default_std_epsilon;
        _edge_normalizer :=
          normalization.__init__ 7 default_max_accumulations
            default_std_epsilon;
        core_model_name := core_model_name;
        core_model := core_model;
        message_passing_steps := message_passing_steps;
        message_passing_aggregator := message_passing_aggregator;
        learned_model := learned |}.

(** the tensor computations of [_build_graph] up to the first normalizer
    call: node features, mesh edges and their features *)
Definition graph_features (inputs : gmap string value)
    : result (tensor * tensor * list nat * list nat * tensor * tensor) :=
  world_pos ← getitem inputs "world_pos" ≫= as_float;
  prev_world_pos ← getitem inputs "prev|world_pos" ≫= as_float;
  node_type ← getitem inputs "node_type" ≫= as_int;
  velocity ← sub world_pos prev_world_pos;
  node_type ← column0 node_type ≫= fun c => one_hot c NodeType_SIZE;
  node_features ← cat [velocity; node_type];
  cells ← getitem inputs "cells";
  '(senders, receivers) ← triangles_to_edges cells;
  mesh_pos ← getitem inputs "mesh_pos" ≫= as_float;
  ws ← index_select world_pos senders;
  wr ← index_select world_pos receivers;
  relative_world_pos ← sub ws wr;
  ms ← index_select mesh_pos senders;
  mr ← index_select mesh_pos receivers;
  relative_mesh_pos ← sub ms mr;
  edge_features ← cat [relative_world_pos; norm relative_world_pos true;
                       relative_mesh_pos; norm relative_mesh_pos true];
  Ok (node_features, edge_features, senders, receivers, world_pos, mesh_pos).

Definition _build_graph (inputs : gmap string value) (is_training : bool)
    : stateful Model graph :=
  '(node_features, edge_features, senders, receivers, world_pos, mesh_pos)
    ← reading (fun _ => graph_features inputs);
  edge_features ← on_attr _edge_normalizer set_edge_normalizer
                    (call [ATensor edge_features; ABool is_training]);
  let mesh_edges :=
    {| name := "mesh_edges"; features := edge_features;
       receivers := receivers; senders := senders |} in
  hub ← reading (fun self =>
          Ok (bool_decide (core_model self = encode_process_decode_hub)));
  node_features ← on_attr _node_normalizer set_node_normalizer
                    (call [ATensor node_features; ABool is_training]);
  if hub : bool then
    mret (MultiGraphWithPos node_features [mesh_edges] world_pos mesh_pos)
  else
    mret (MultiGraph node_features [mesh_edges]).

Definition _update (self : Model) (inputs : gmap string value)
    (per_node_network_output : tensor) : result tensor :=
  acceleration ← inverse (_output_normalizer self) per_node_network_output;
  cur_position ← getitem inputs "world_pos" ≫= as_float;
  prev_position ← getitem inputs "prev|world_pos" ≫= as_float;
  doubled ← mul (T0 2) cur_position;
  moved ← add doubled acceleration;
  sub moved prev_position.

Definition forward (inputs : gmap string value) (is_training : bool)
    : stateful Model tensor :=
  graph ← _build_graph inputs is_training;
  if is_training then
    reading (fun self => learned_model self graph)
  else
    reading (fun self =>
      output ← learned_model self graph; _update self inputs output).

End model.

(** *** save_model, load_model *)

Definition set_output_normalizer (n : Normalizer) (self : Model) : Model :=
  {| _params := _params self;
     _output_normalizer := n;
     _node_normalizer := _node_normalizer self;
     _edge_normalizer := _edge_normalizer self;
     core_model_name := core_model_name self;
     core_model := core_model self;
     message_passing_steps := message_passing_steps self;
     message_passing_aggregator := message_passing_aggregator self;
     learned_model := learned_model self |}.

Definition set_learned_model (l : graph -> result tensor) (self : Model)
    : Model :=
  {| _params := _params self;
     _output_normalizer := _output_normalizer self;
     _node_normalizer := _node_normalizer self;
     _edge_normalizer := _edge_normalizer self;
     core_model_name := core_model_name self;
     core_model := core_model self;
     message_passing_steps := message_passing_steps self;
     message_passing_aggregator := message_passing_aggregator self;
     learned_model := l |}.

Definition get_output_normalizer (self : Model) : Normalizer :=
  _output_normalizer self.

Definition save_model (self : Model) (path : string)
    (fs : gmap string (serialization.object (graph -> result tensor)))
    : gmap string (serialization.object (graph -> result tensor)) :=
  let fs := serialization.save (serialization.OLearned (learned_model self))
              (path +:+ "_learned_model.pth") fs in
  let fs := serialization.save
              (serialization.ONormalizer (_output_normalizer self))
              (path +:+ "_output_normalizer.pth") fs in
  let fs := serialization.save
              (serialization.ONormalizer (_edge_normalizer self))
              (path +:+ "_edge_normalizer.pth") fs in
  serialization.save (serialization.ONormalizer (_node_normalizer self))
    (path +:+ "_node_normalizer.pth") fs.

Definition load_model
    (fs : gmap string (serialization.object (graph -> result tensor)))
    (path : string) : serialization.loading Model :=
  serialization.and_then
    (serialization.load_learned fs (path +:+ "_learned_model.pth")
       set_learned_model)
    (serialization.and_then
       (serialization.load_normalizer fs (path +:+ "_output_normalizer.pth")
          set_output_normalizer)
       (serialization.and_then
          (serialization.load_normalizer fs
             (path +:+ "_edge_normalizer.pth") set_edge_normalizer)
          (serialization.load_normalizer fs
             (path +:+ "_node_normalizer.pth") set_node_normalizer))).

(** two models that differ at most in their node and edge normalizers *)
Definition same_but_input_normalizers (a b : Model) : Prop :=
  _params a = _params b /\
  _output_normalizer a = _output_normalizer b /\
  core_model_name a = core_model_name b /\
  core_model a = core_model b /\
  message_passing_steps a = message_passing_steps b /\
  message_passing_aggregator a = message_passing_aggregator b /\
  learned_model a = learned_model b.

End cloth_model.

(** ** deform_model.py *)

Module deform_model.
Import Py torch normalization core.
Local Open Scope string_scope.

Inductive graph : Type :=
| MultiGraph (node_features : tensor) (edge_sets : list EdgeSet)
| MultiGraphWithPos (node_features : tensor) (edge_sets : list EdgeSet)
    (target_feature mesh_pos : tensor) (model_type : string)
    (node_dynamic : tensor).

(** what [forward] returns: the raw network output when training, the
    triple of [_update] otherwise *)
Inductive output : Type :=
| Raw (per_node_network_output : tensor)
| Integrated (position cur_position velocity : tensor).

(** the [core_model_name] argument: its default is the module
    [encode_process_decode] itself, callers may pass a name *)
Inductive name_or_module : Type :=
| ByName (s : string)
| ByModule (m : module).

(** the six [ripple_*] arguments, handed on to the core as they come *)
Record ripple_options : Type := {
  ripple_generation : option string;
  ripple_generation_number : option Z;
  ripple_node_selection : option string;
  ripple_node_selection_random_top_n : option Z;
  ripple_node_connection : option string;
  ripple_node_ncross : option Z
}.

(** the learned core is called with the graph, the two edge normalizers
    (objects it may use and change) and the mode *)
Definition learned : Type :=
  graph -> Normalizer -> Normalizer -> bool ->
  result tensor * (Normalizer * Normalizer).

Record Model : Type := {
  _params : gmap string param;
  _output_normalizer : Normalizer;
  _node_normalizer : Normalizer;
  _node_dynamic_normalizer : Normalizer;
  _mesh_edge_normalizer : Normalizer;
  _world_edge_normalizer : Normalizer;
  _model_type : string;
  (* [_displacement_base] is None from construction on and never read *)
  core_model_name : name_or_module;
  core_model : module;
  message_passing_steps : Z;
  message_passing_aggregator : string;
  _attention : bool;
  _ripple_used : bool;
  _ripple : option ripple_options;
  learned_model : learned
}.

Definition set_node_normalizer (n : Normalizer) (self : Model) : Model :=
  {| _params := _params self;
     _output_normalizer := _output_normalizer self;
     _node_normalizer := n;
     _node_dynamic_normalizer := _node_dynamic_normalizer self;
     _mesh_edge_normalizer := _mesh_edge_normalizer self;
     _world_edge_normalizer := _world_edge_normalizer self;
     _model_type := _model_type self;
     core_model_name := core_model_name self;
     core_model := core_model self;
     message_passing_steps := message_passing_steps self;
     message_passing_aggregator := message_passing_aggregator self;
     _attention := _attention self;
     _ripple_used := _ripple_used self;
     _ripple := _ripple self;
     learned_model := learned_model self |}.

Definition set_node_dynamic_normalizer (n : Normalizer) (self : Model)
    : Model :=
  {| _params := _params self;
     _output_normalizer := _output_normalizer self;
     _node_normalizer := _node_normalizer self;
     _node_dynamic_normalizer := n;
     _mesh_edge_normalizer := _mesh_edge_normalizer self;
     _world_edge_normalizer := _world_edge_normalizer self;
     _model_type := _model_type self;
     core_model_name := core_model_name self;
     core_model := core_model self;
     message_passing_steps := message_passing_steps self;
     message_passing_aggregator := message_passing_aggregator self;
     _attention := _attention self;
     _ripple_used := _ripple_used self;
     _ripple := _ripple self;
     learned_model := learned_model self |}.

Definition set_mesh_edge_normalizer (n : Normalizer) (self : Model)
    : Model :=
  {| _params := _params self;
     _output_normalizer := _output_normalizer self;
     _node_normalizer := _node_normalizer self;
     _node_dynamic_normalizer := _node_dynamic_normalizer self;
     _mesh_edge_normalizer := n;
     _world_edge_normalizer := _world_edge_normalizer self;
     _model_type := _model_type self;
     core_model_name := core_model_name self;
     core_model := core_model self;
     message_passing_steps := message_passing_steps self;
     message_passing_aggregator := message_passing_aggregator self;
     _attention := _attention self;
     _ripple_used := _ripple_used self;
     _ripple := _ripple self;
     learned_model := learned_model self |}.

Definition set_world_edge_normalizer (n : Normalizer) (self : Model)
    : Model :=
  {| _params := _params self;
     _output_normalizer := _output_normalizer self;
     _node_normalizer := _node_normalizer self;
     _node_dynamic_normalizer := _node_dynamic_normalizer self;
     _mesh_edge_normalizer := _mesh_edge_normalizer self;
     _world_edge_normalizer := n;
     _model_type := _model_type self;
     core_model_name := core_model_name self;
     core_model := core_model self;
     message_passing_steps := message_passing_steps self;
     message_passing_aggregator := message_passing_aggregator self;
     _attention := _attention self;
     _ripple_used := _ripple_used self;
     _ripple := _ripple self;
     learned_model := learned_model self |}.

(** *** unsorted_segment_operation *)

(** segment indices: a tensor of rank 1, or of the rank of the data *)
Inductive ids : Type :=
| I1 (v : list nat)
| I2 (m : list (list nat)).

Definition ids_shape (s : ids) : list nat :=
  match s with
  | I1 v => [length v]
  | I2 m => [length m; ncols m]
  end.

Definition assert (b : bool) (msg : string) : result unit :=
  if b then Ok tt else Err (AssertionError msg).

(** the values of [v] whose segment index is [k] *)
Definition segment (k : nat) (s : list nat) (v : list R) : list R :=
  omap (fun p : nat * R => if decide (p.1 = k) then Some p.2 else None)
       (zip s v).

(** [torch_scatter.scatter_* (data, segment_ids, dim=0, dim_size=n)]:
    row [k] of the output reduces, column by column, the entries of the
    data whose index is [k]; an index outside [0, n) is refused *)
Definition scatter (reduce : list R -> R) (data : tensor) (s : ids)
    (n : nat) : result tensor :=
  match data, s with
  | T1 v, I1 sv =>
      if forallb (fun i => bool_decide (i < n)) sv then
        Ok (T1 (map (fun k => reduce (segment k sv v)) (seq 0 n)))
      else Err RuntimeError
  | T2 m, I2 sm =>
      if forallb (forallb (fun i => bool_decide (i < n))) sm then
        Ok (T2 (map (fun k =>
                  map (fun j => reduce (segment k (column j sm)
                                                  (column j m)))
                      (seq 0 (ncols m)))
                (seq 0 n)))
      else Err RuntimeError
  | _, _ => Err RuntimeError
  end.

(** an empty segment reduces to zero under each of the four *)
Definition reduce_add (l : list R) : R := total l.

Definition reduce_mean (l : list R) : R :=
  (total l / Rmax (INR (length l)) 1)%R.

Definition reduce_max (l : list R) : R :=
  match l with
  | [] => 0%R
  | x :: l' => foldr Rmax x l'
  end.

Definition reduce_min (l : list R) : R :=
  match l with
  | [] => 0%R
  | x :: l' => foldr Rmin x l'
  end.

Definition unsorted_segment_operation (data : tensor) (segment_ids : ids)
    (num_segments : nat) (operation : string) : result tensor :=
  _ ← assert (forallb (fun i => bool_decide (i ∈ size data))
                      (ids_shape segment_ids))
         "segment_ids.shape should be a prefix of data.shape";
  let segment_ids :=
    match segment_ids with
    | I1 v =>
        match data with
        | T2 m => I2 (map (replicate (ncols m)) v)
        | _ => I1 v
        end
    | I2 m => I2 m
    end in
  _ ← assert (bool_decide (size data = ids_shape segment_ids))
         "data.shape and segment_ids.shape should be equal";
  (* the zero tensor first bound to [result] is replaced in each branch *)
  result ←
    (if decide (operation = "sum") then
       scatter reduce_add data segment_ids num_segments
     else if decide (operation = "max") then
       scatter reduce_max data segment_ids num_segments
     else if decide (operation = "mean") then
       scatter reduce_mean data segment_ids num_segments
     else if decide (operation = "min") then
       scatter reduce_min data segment_ids num_segments
     else Err (Exception "Invalid operation type!"));
  Ok result.

Section model.
Context {library_add : TensorAdd}.

(** [common.NodeType] and [common.triangles_to_edges(cells, deform=True)]:
    [common] is not among the three files *)
Variable NodeType_SIZE : nat.
Variable NodeType_OBSTACLE : Z.
Variable NodeType_HANDLE : Z.
Variable triangles_to_edges :
  value -> result (gmap string (list nat * list nat)).

(** [core_model.EncodeProcessDecode(...)] with the keywords of
    [__init__] *)
Variable EncodeProcessDecode :
  module -> param -> Z -> Z -> Z -> string -> bool -> bool ->
  option ripple_options -> result learned.

Definition __init__ (params : gmap string param)
    (core_model_name : name_or_module)
    (message_passing_aggregator : string) (message_passing_steps : Z)
    (attention ripple_used : bool) (ripple : ripple_options)
    : result Model :=
  model_type ← getitem params "model" ≫= __name__;
  let core_model := encode_process_decode in
  let ripple := if ripple_used then Some ripple else None in
  output_size ← getitem params "size";
  learned_model ← EncodeProcessDecode core_model output_size 128 2
                    message_passing_steps message_passing_aggregator
                    attention ripple_used ripple;
  Ok {| _params := params;
        _output_normalizer :=
          normalization.__init__ 3 default_max_accumulations
            default_std_epsilon;
        _node_normalizer :=
          normalization.__init__ 3 default_max_accumulations
            default_std_epsilon;
        _node_dynamic_normalizer :=
          normalization.__init__ 1 default_max_accumulations
            default_std_epsilon;
        _mesh_edge_normalizer :=
          normalization.__init__ 8 default_max_accumulations
            default_std_epsilon;
        _world_edge_normalizer :=
          normalization.__init__ 4 default_max_accumulations
            default_std_epsilon;
        _model_type := model_type;
        core_model_name := core_model_name;
        core_model := core_model;
        message_passing_steps := message_passing_steps;
        message_passing_aggregator := message_passing_aggregator;
        _attention := attention;
        _ripple_used := ripple_used;
        _ripple := ripple;
        learned_model := learned_model |}.

Definition radius : R := 0.006%R.

(** [t.shape[0]] *)
Definition shape0 (t : tensor) : result nat :=
  match t with
  | T0 _ => Err IndexError
  | T1 v => Ok (length v)
  | T2 m => Ok (length m)
  end.

(** [torch.eq(node_type[:, 0], torch.tensor([code]))] *)
Definition eq_code (types : list Z) (code : Z) : list bool :=
  map (fun t => bool_decide (t = code)) types.

(** the part of [_build_graph] under the comment "find world edge":
    the index pairs [(world_senders, world_receivers)] *)
Definition find_world_edges (world_pos : tensor)
    (senders receivers : list nat) (node_type : list (list Z))
    : result (list nat * list nat) :=
  world_distance_matrix ← cdist world_pos world_pos;
  world_connection_matrix ←
    where_ (map (map (fun d => bool_decide (d < radius)%R))
                world_distance_matrix)
           (T0 1) (T0 0);
  let world_connection_matrix := fill_diagonal_ world_connection_matrix 0 in
  world_connection_matrix ←
    setitem world_connection_matrix senders receivers 0;
  types ← column0 node_type;
  let no_connection_mask := eq_code types NodeType_OBSTACLE in
  let no_connection_mask :=
    zip_with orb no_connection_mask (eq_code types NodeType_HANDLE) in
  n ← shape0 world_pos;
  stacked ← stack_copies_dim1 no_connection_mask n;
  let no_connection_mask := transpose stacked in
  world_connection_matrix ←
    where_ no_connection_mask (T0 0) (T2 world_connection_matrix);
  let pairs := nonzero world_connection_matrix in
  Ok (pairs.*1, pairs.*2).

(** [torch.eq(node_type[:, 0], OBSTACLE)] stacked [width] times *)
Definition obstacle_mask (node_type : list (list Z)) (width : nat)
    : result (list (list bool)) :=
  types ← column0 node_type;
  stack_copies_dim1 (eq_code types NodeType_OBSTACLE) width.

Definition _build_graph (inputs : gmap string value) (is_training : bool)
    : stateful Model graph :=
  '(world_pos, target_world_pos, node_type, one_hot_node_type) ←
    reading (fun _ =>
      world_pos ← getitem inputs "world_pos" ≫= as_float;
      target_world_pos ← getitem inputs "target|world_pos" ≫= as_float;
      node_type ← getitem inputs "node_type" ≫= as_int;
      one_hot_node_type ←
        column0 node_type ≫= fun c => one_hot c NodeType_SIZE;
      Ok (world_pos, target_world_pos, node_type, one_hot_node_type));
  '(senders, receivers, mesh_pos, relative_mesh_pos) ←
    reading (fun _ =>
      cells ← getitem inputs "cells";
      decomposed_cells ← triangles_to_edges cells;
      '(senders, receivers) ←
        getitem decomposed_cells "two_way_connectivity";
      mesh_pos ← getitem inputs "mesh_pos" ≫= as_float;
      ms ← index_select mesh_pos senders;
      mr ← index_select mesh_pos receivers;
      relative_mesh_pos ← sub ms mr;
      Ok (senders, receivers, mesh_pos, relative_mesh_pos));
  '(world_senders, world_receivers, world_edge_features) ←
    reading (fun _ =>
      '(world_senders, world_receivers) ←
        find_world_edges world_pos senders receivers node_type;
      ws ← index_select world_pos world_senders;
      wr ← index_select world_pos world_receivers;
      relative_world_pos ← sub ws wr;
      world_edge_features ←
        cat [relative_world_pos; norm relative_world_pos true];
      Ok (world_senders, world_receivers, world_edge_features));
  world_edge_features ←
    on_attr _world_edge_normalizer set_world_edge_normalizer
      (call [ATensor world_edge_features; ANone; ABool is_training]);
  let world_edges :=
    {| name := "world_edges"; features := world_edge_features;
       receivers := world_receivers; senders := world_senders |} in
  '(all_relative_world_pos, mesh_edge_features) ←
    reading (fun _ =>
      ws ← index_select world_pos senders;
      wr ← index_select world_pos receivers;
      all_relative_world_pos ← sub ws wr;
      mesh_edge_features ←
        cat [relative_mesh_pos; norm relative_mesh_pos true;
             all_relative_world_pos; norm all_relative_world_pos true];
      Ok (all_relative_world_pos, mesh_edge_features));
  mesh_edge_features ←
    on_attr _mesh_edge_normalizer set_mesh_edge_normalizer
      (call [ATensor mesh_edge_features; ANone; ABool is_training]);
  let mesh_edges :=
    {| name := "mesh_edges"; features := mesh_edge_features;
       receivers := receivers; senders := senders |} in
  displacement ←
    reading (fun _ =>
      mask ← obstacle_mask node_type 3;
      masked_target_world_pos ← where_ mask target_world_pos (T0 0);
      masked_world_pos ← where_ mask world_pos (T0 0);
      sub (T2 masked_target_world_pos) (T2 masked_world_pos));
  kinematic_nodes_features ←
    on_attr _node_normalizer set_node_normalizer
      (call [ATensor displacement]);
  node_features ←
    reading (fun _ =>
      normal_node_features ← cat [zeros_like world_pos; one_hot_node_type];
      kinematic_node_features ←
        cat [kinematic_nodes_features; one_hot_node_type];
      mask ← obstacle_mask node_type 12;
      T2 <$> where_ mask kinematic_node_features normal_node_features);
  ripple_used ← reading (fun self => Ok (_ripple_used self));
  if ripple_used : bool then
    spread ←
      reading (fun _ =>
        let num_nodes := length node_type in
        max_node_dynamic ←
          unsorted_segment_operation (norm all_relative_world_pos false)
            (I1 receivers) num_nodes "max";
        min_node_dynamic ←
          unsorted_segment_operation (norm all_relative_world_pos false)
            (I1 receivers) num_nodes "min";
        sub max_node_dynamic min_node_dynamic);
    node_dynamic ←
      on_attr _node_dynamic_normalizer set_node_dynamic_normalizer
        (call [ATensor spread]);
    reading (fun self =>
      Ok (MultiGraphWithPos node_features [mesh_edges; world_edges]
            world_pos mesh_pos (_model_type self) node_dynamic))
  else
    mret (MultiGraph node_features [mesh_edges; world_edges]).

Definition _update (self : Model) (inputs : gmap string value)
    (per_node_network_output : tensor) : result (tensor * tensor * tensor) :=
  velocity ← inverse (_output_normalizer self) per_node_network_output;
  cur_position ← getitem inputs "world_pos" ≫= as_float;
  position ← add cur_position velocity;
  Ok (position, cur_position, velocity).

(** [self.learned_model(graph, self._mesh_edge_normalizer,
    world_edge_normalizer=self._world_edge_normalizer,
    is_training=is_training)] *)
Definition call_learned_model (graph : graph) (is_training : bool)
    : stateful Model tensor :=
  fun self =>
    let '(r, (mesh, world)) :=
      learned_model self graph (_mesh_edge_normalizer self)
        (_world_edge_normalizer self) is_training in
    (r, set_world_edge_normalizer world
          (set_mesh_edge_normalizer mesh self)).

Definition forward (inputs : gmap string value) (is_training : bool)
    : stateful Model output :=
  graph ← _build_graph inputs is_training;
  if is_training then
    out ← call_learned_model graph is_training;
    mret (Raw out)
  else
    out ← call_learned_model graph is_training;
    reading (fun self =>
      '(position, cur_position, velocity) ← _update self inputs out;
      Ok (Integrated position cur_position velocity)).

End model.

(** *** save_model, load_model *)

Definition set_output_normalizer (n : Normalizer) (self : Model) : Model :=
  {| _params := _params self;
     _output_normalizer := n;
     _node_normalizer := _node_normalizer self;
     _node_dynamic_normalizer := _node_dynamic_normalizer self;
     _mesh_edge_normalizer := _mesh_edge_normalizer self;
     _world_edge_normalizer := _world_edge_normalizer self;
     _model_type := _model_type self;
     core_model_name := core_model_name self;
     core_model := core_model self;
     message_passing_steps := message_passing_steps self;
     message_passing_aggregator := message_passing_aggregator self;
     _attention := _attention self;
     _ripple_used := _ripple_used self;
     _ripple := _ripple self;
     learned_model := learned_model self |}.

Definition set_learned_model (l : learned) (self : Model) : Model :=
  {| _params := _params self;
     _output_normalizer := _output_normalizer self;
     _node_normalizer := _node_normalizer self;
     _node_dynamic_normalizer := _node_dynamic_normalizer self;
     _mesh_edge_normalizer := _mesh_edge_normalizer self;
     _world_edge_normalizer := _world_edge_normalizer self;
     _model_type := _model_type self;
     core_model_name := core_model_name self;
     core_model := core_model self;
     message_passing_steps := message_passing_steps self;
     message_passing_aggregator := message_passing_aggregator self;
     _attention := _attention self;
     _ripple_used := _ripple_used self;
     _ripple := _ripple self;
     learned_model := l |}.

Definition get_output_normalizer (self : Model) : Normalizer :=
  _output_normalizer self.

Definition save_model (self : Model) (path : string)
    (fs : gmap string (serialization.object learned))
    : gmap string (serialization.object learned) :=
  let fs := serialization.save (serialization.OLearned (learned_model self))
              (path +:+ "_learned_model.pth") fs in
  let fs := serialization.save
              (serialization.ONormalizer (_output_normalizer self))
              (path +:+ "_output_normalizer.pth") fs in
  let fs := serialization.save
              (serialization.ONormalizer (_mesh_edge_normalizer self))
              (path +:+ "_mesh_edge_normalizer.pth") fs in
  let fs := serialization.save
              (serialization.ONormalizer (_world_edge_normalizer self))
              (path +:+ "_world_edge_normalizer.pth") fs in
  serialization.save (serialization.ONormalizer (_node_normalizer self))
    (path +:+ "_node_normalizer.pth") fs.

Definition load_model (fs : gmap string (serialization.object learned))
    (path : string) : serialization.loading Model :=
  serialization.and_then
    (serialization.load_learned fs (path +:+ "_learned_model.pth")
       set_learned_model)
    (serialization.and_then
       (serialization.load_normalizer fs (path +:+ "_output_normalizer.pth")
          set_output_normalizer)
       (serialization.and_then
          (serialization.load_normalizer fs
             (path +:+ "_mesh_edge_normalizer.pth") set_mesh_edge_normalizer)
          (serialization.and_then
             (serialization.load_normalizer fs
                (path +:+ "_world_edge_normalizer.pth")
                set_world_edge_normalizer)
             (serialization.load_normalizer fs
                (path +:+ "_node_normalizer.pth") set_node_normalizer)))).

End deform_model.

(** ** Concrete objects on which the theorems below are exercised *)

Module examples.
Import Py torch core.
Local Open Scope string_scope.
Local Open Scope R_scope.

(** a normalizer whose event counter stands at the default cap *)
Definition capped : normalization.Normalizer :=
  normalization.set_num_accumulations (T1 [1000000])
    (normalization.__init__ 2 normalization.default_max_accumulations
       normalization.default_std_epsilon).

Definition fresh (size : nat) : normalization.Normalizer :=
  normalization.__init__ size normalization.default_max_accumulations
    normalization.default_std_epsilon.

(** a core that refuses every graph *)
Definition no_core : deform_model.learned :=
  fun _ mesh world _ => (Err RuntimeError, (mesh, world)).

Definition no_ripple : deform_model.ripple_options :=
  {| deform_model.ripple_generation := None;
     deform_model.ripple_generation_number := None;
     deform_model.ripple_node_selection := None;
     deform_model.ripple_node_selection_random_top_n := None;
     deform_model.ripple_node_connection := None;
     deform_model.ripple_node_ncross := None |}.

Definition plate_params : gmap string param :=
  {[ "model" := PModule "deform_model"; "size" := PInt 3 ]}.

Definition flag_model : cloth_model.Model :=
  {| cloth_model._params := {[ "size" := PInt 3 ]};
     cloth_model._output_normalizer := fresh 3;
     cloth_model._node_normalizer := fresh 12;
     cloth_model._edge_normalizer := fresh 7;
     cloth_model.core_model_name := "encode_process_decode";
     cloth_model.core_model := encode_process_decode;
     cloth_model.message_passing_steps := 15;
     cloth_model.message_passing_aggregator := "sum";
     cloth_model.learned_model := fun _ => Err RuntimeError |}.

Definition flag_inputs : gmap string value :=
  {[ "world_pos" := Float (T2 [[0; 0; 0]; [1; 0; 0]]);
     "prev|world_pos" := Float (T2 [[0; 0; 0]; [0.9; 0; 0]]) ]}.

Definition plate_model : deform_model.Model :=
  {| deform_model._params := plate_params;
     deform_model._output_normalizer := fresh 3;
     deform_model._node_normalizer := fresh 3;
     deform_model._node_dynamic_normalizer := fresh 1;
     deform_model._mesh_edge_normalizer := fresh 8;
     deform_model._world_edge_normalizer := fresh 4;
     deform_model._model_type := "deform_model";
     deform_model.core_model_name :=
       deform_model.ByModule encode_process_decode;
     deform_model.core_model := encode_process_decode;
     deform_model.message_passing_steps := 15;
     deform_model.message_passing_aggregator := "sum";
     deform_model._attention := false;
     deform_model._ripple_used := false;
     deform_model._ripple := None;
     deform_model.learned_model := no_core |}.

Definition plate_inputs : gmap string value :=
  {[ "world_pos" := Float (T2 [[2; 0; 0]]) ]}.

(** three nodes a millimetre apart; the first two share a mesh edge and
    the third is an obstacle (type code 1, handles being 3) *)
Definition contact_world_pos : list (list R) :=
  [[0; 0; 0]; [0.001; 0; 0]; [0.002; 0; 0]].

Definition contact_node_type : list (list Z) := [[0%Z]; [0%Z]; [1%Z]].

End examples.

(** ** More scenarios *)

Module scenarios.
Import Py torch core.
Local Open Scope string_scope.
Local Open Scope R_scope.

(** a cloth of one triangle, its third node a handle, with rest
    coordinates in the plane *)
Definition triangle_inputs : gmap string value :=
  {[ "world_pos" := Float (T2 [[0; 0; 0]; [1; 0; 0]; [0; 1; 0]]);
     "prev|world_pos" := Float (T2 [[0; 0; 0]; [0.9; 0; 0]; [0; 1; 0]]);
     "node_type" := Int [[0%Z]; [0%Z]; [3%Z]];
     "cells" := Int [[0%Z; 1%Z; 2%Z]];
     "mesh_pos" := Float (T2 [[0; 0]; [1; 0]; [0; 1]]) ]}.

(** the two-way edges of that triangle, as [common.triangles_to_edges]
    is documented to return them *)
Definition triangle_edges (cells : value)
    : result (list nat * list nat) :=
  Ok ([0; 1; 2; 1; 2; 0], [1; 2; 0; 0; 1; 2])%nat.

(** the contact scenario as inputs of the plate model: three nodes a
    millimetre apart, the third an obstacle, and one mesh edge, in both
    directions, between the first two *)
Definition contact_inputs : gmap string value :=
  {[ "world_pos" := Float (T2 examples.contact_world_pos);
     "target|world_pos" := Float (T2 examples.contact_world_pos);
     "node_type" := Int examples.contact_node_type;
     "cells" := Int [[0%Z; 1%Z; 2%Z]];
     "mesh_pos" := Float (T2 [[0; 0]; [1; 0]; [0; 1]]) ]}.

Definition contact_edges (cells : value)
    : result (gmap string (list nat * list nat)) :=
  Ok {[ "two_way_connectivity" := ([0; 1], [1; 0])%nat ]}.

End scenarios.

(** * Properties *)

Import Py torch normalization core.
Local Open Scope string_scope.

(** ** Results, traversals and broadcasting *)

Lemma bind_ok {A B} (a : A) (f : A -> result B) : (Ok a ≫= f) = f a.
Proof. reflexivity. Qed.

Lemma traverse_pure {A B} (g : A -> B) (l : list A) :
  traverse (fun x => Ok (g x)) l = Ok (map g l).
Proof.
  induction l as [|x l IH]; [reflexivity|].
  cbn. rewrite IH. reflexivity.
Qed.

Lemma traverse_ext {A B} (f g : A -> result B) (l : list A) :
  Forall (fun x => f x = g x) l -> traverse f l = traverse g l.
Proof.
  induction 1 as [|x l Hx _ IH]; [reflexivity|].
  cbn. rewrite Hx, IH. reflexivity.
Qed.

Lemma forallb_holds {A} (f : A -> bool) (l : list A) :
  Forall (fun x => f x = true) l -> forallb f l = true.
Proof.
  induction 1 as [|x l Hx _ IH]; [reflexivity|]. cbn. by rewrite Hx, IH.
Qed.

Lemma getitem_lookup {V} (d : gmap string V) k v :
  d !! k = Some v -> getitem d k = Ok v.
Proof. intros H. unfold getitem. rewrite H. reflexivity. Qed.

Lemma lookup_map {A B} (f : A -> B) (l : list A) (i : nat) :
  map f l !! i = f <$> l !! i.
Proof. apply (list_lookup_fmap f l i). Qed.

Lemma broadcast_paired {A B C} (f : A -> B -> C) (xs : list A) (ys : list B) :
  length xs = length ys ->
  broadcast (fun x y => Ok (f x y)) xs ys = Ok (zip_with f xs ys).
Proof.
  intros Hlen. unfold broadcast.
  destruct (decide (length xs = length ys)) as [_|Hne]; [|done].
  rewrite (traverse_pure (fun p => f p.1 p.2)). f_equal. clear Hlen.
  revert ys. induction xs as [|x xs IH]; intros [|y ys]; cbn;
    try reflexivity.
  by rewrite <- IH.
Qed.

Lemma broadcast_row {A B C} (f : A -> B -> result C) (xs : list A) (y : B) :
  broadcast f xs [y] = traverse (fun x => f x y) xs.
Proof.
  unfold broadcast.
  destruct xs as [|x [|x' xs]]; cbn; reflexivity.
Qed.

Lemma broadcast_scalar_rows {A B C} (f : A -> B -> C) (m : list (list A))
    (y : B) :
  broadcast (broadcast (fun a b => Ok (f a b))) m [[y]]
  = Ok (map (map (fun a => f a y)) m).
Proof.
  rewrite broadcast_row.
  rewrite (traverse_ext _ (fun r => Ok (map (fun a => f a y) r))).
  - apply traverse_pure.
  - apply Forall_true. intros r. rewrite broadcast_row. apply traverse_pure.
Qed.

Lemma broadcast_matrix {A B C} (f : A -> B -> C) rows cols
    (m : list (list A)) (n : list (list B)) :
  shape rows cols m -> shape rows cols n ->
  broadcast (broadcast (fun a b => Ok (f a b))) m n
  = Ok (zip_with (zip_with f) m n).
Proof.
  intros [Hrm Hcm] [Hrn Hcn]. unfold broadcast at 1.
  destruct (decide (length m = length n)) as [_|Hne]; [|congruence].
  clear Hrm Hrn. revert n Hcn.
  induction Hcm as [|r m Hr _ IH]; intros [|s n] Hn; cbn; try reflexivity.
  inversion Hn; subst.
  rewrite broadcast_paired by congruence.
  rewrite bind_ok, IH by assumption. reflexivity.
Qed.

Lemma pointwise_T2_T2 f (d : nat) (m n : list (list R)) :
  length m = length n ->
  Forall (fun r => length r = d) m ->
  Forall (fun r => length r = d) n ->
  pointwise f (T2 m) (T2 n) = Ok (T2 (zip_with (zip_with f) m n)).
Proof.
  intros Hlen Hm Hn. cbn.
  rewrite (broadcast_matrix f (length m) d) by (split; congruence).
  reflexivity.
Qed.

(** ** The normalizer *)

Section normalizer_facts.
Local Open Scope R_scope.

Lemma call_without_accumulate {library_add : TensorAdd} x a self :
  truthy a = Ok false ->
  __call__ x a self =
    ((mean ← _mean self; centred ← sub x mean;
      std ← _std_with_epsilon self; div centred std), self).
Proof.
  intros Ha. unfold __call__, reading, mbind, stateful_bind. rewrite Ha. cbn.
  reflexivity.
Qed.

(** [torch.maximum] is handed a Python float, [1.], in the first
    statement of [_mean] and of [_std_with_epsilon]; a [torch.Size] is
    asked for [tolist] in the first statement of [_accumulate]. *)
Lemma mean_raises self : _mean self = Err TypeError.
Proof. reflexivity. Qed.

Lemma std_raises self : _std_with_epsilon self = Err TypeError.
Proof. reflexivity. Qed.

Lemma accumulate_raises {library_add : TensorAdd} x self :
  _accumulate x self = (Err AttributeError, self).
Proof. reflexivity. Qed.

Lemma call_evaluation_raises {library_add : TensorAdd} x a self :
  truthy a = Ok false -> __call__ x a self = (Err TypeError, self).
Proof.
  intros Ha. rewrite call_without_accumulate by assumption.
  by rewrite mean_raises.
Qed.

Lemma call_below_cap {library_add : TensorAdd} x self k :
  _num_accumulations self = T1 [k] ->
  k < IZR (_max_accumulations self) ->
  __call__ x (ABool true) self = (Err AttributeError, self).
Proof.
  intros Hk Hcap. unfold __call__, reading, mbind, stateful_bind. cbn.
  rewrite Hk. cbn. rewrite bool_decide_eq_true_2 by assumption.
  reflexivity.
Qed.

Lemma call_past_cap {library_add : TensorAdd} x self k :
  _num_accumulations self = T1 [k] ->
  IZR (_max_accumulations self) <= k ->
  __call__ x (ABool true) self = (Err TypeError, self).
Proof.
  intros Hk Hcap. unfold __call__, reading, mbind, stateful_bind. cbn.
  rewrite Hk. cbn. rewrite bool_decide_eq_false_2 by lra. reflexivity.
Qed.

(** Every call of a normalizer ends in an exception and leaves the
    normalizer as it was, for every behaviour of [Tensor.add]. *)
Lemma call_raises {library_add : TensorAdd} x a : raises (__call__ x a).
Proof.
  intros self. unfold __call__, reading, mbind, stateful_bind.
  destruct (truthy a) as [[|]|e]; cbn; [| |by eexists].
  - destruct (lt_truth _ _) as [[|]|e]; cbn; by eexists.
  - by eexists.
Qed.

(** C1. The claim: the call with [accumulate=False] and [inverse] are
    exact inverses, and the call leaves the statistics untouched.  On
    the code there is nothing to invert: for every normalizer, in any
    accumulator state, and every batch, [_mean] and [_std_with_epsilon]
    raise [TypeError] ([torch.maximum] refuses the Python float), so the
    call with [accumulate=False] raises [TypeError] at
    [batched_data - self._mean()] and [inverse] raises [TypeError] at
    [self._std_with_epsilon()].  Only the last part of the claim holds:
    the call leaves the normalizer as it was. *)
Theorem normalizer_roundtrip_raises {library_add : TensorAdd}
    (self : Normalizer) (x y : tensor) :
  _mean self = Err TypeError /\
  _std_with_epsilon self = Err TypeError /\
  __call__ x (ABool false) self = (Err TypeError, self) /\
  inverse self y = Err TypeError.
Proof.
  split; [apply mean_raises|]. split; [apply std_raises|]. split.
  - by apply call_evaluation_raises.
  - unfold inverse. by rewrite std_raises.
Qed.

(** C2. The claim: each accumulating call adds the number of rows of
    its batch to the running count.  On the code no call adds anything:
    [_accumulate] raises [AttributeError] at its first statement,
    [len(batched_data.size().tolist())], before a sum or a count is
    touched, so a call with [accumulate=True] of a normalizer whose
    event counter [k] is below [max_accumulations] raises
    [AttributeError] and leaves count, sums and event counter as they
    were, whatever the batch and whatever [Tensor.add] does. *)
Theorem accumulate_never_counts {library_add : TensorAdd}
    (x : tensor) (self : Normalizer) (k : R) :
  _num_accumulations self = T1 [k] ->
  k < IZR (_max_accumulations self) ->
  _accumulate x self = (Err AttributeError, self) /\
  __call__ x (ABool true) self = (Err AttributeError, self).
Proof.
  intros Hk Hcap. split; [apply accumulate_raises|].
  by apply (call_below_cap x self k).
Qed.

(** a new normalizer of one feature and a batch of three rows *)
Lemma accumulate_never_counts_witness :
  @_accumulate documented_add (T2 [[1]; [2]; [3]]) (examples.fresh 1)
  = (Err AttributeError, examples.fresh 1) /\
  @__call__ documented_add (T2 [[1]; [2]; [3]]) (ABool true)
    (examples.fresh 1)
  = (Err AttributeError, examples.fresh 1).
Proof.
  apply (accumulate_never_counts (T2 [[1]; [2]; [3]]) (examples.fresh 1) 0).
  - reflexivity.
  - cbn. unfold default_max_accumulations. lra.
Defined.

(** C3. The claim: past the cap a call with [accumulate=True] changes
    nothing and raises no error.  On the code the first half holds and
    the second does not: with the event counter [k] at or above
    [max_accumulations] the guard of [__call__] skips [_accumulate], the
    normalizer is left as it was, and the call then raises [TypeError]
    at [self._mean()], for every batch and every behaviour of
    [Tensor.add]. *)
Theorem cap_call_raises {library_add : TensorAdd}
    (x : tensor) (self : Normalizer) (k : R) :
  _num_accumulations self = T1 [k] ->
  IZR (_max_accumulations self) <= k ->
  __call__ x (ABool true) self = (Err TypeError, self).
Proof.
  intros Hk Hcap. by apply (call_past_cap x self k).
Qed.

Lemma cap_call_raises_witness :
  @__call__ documented_add (T2 [[1; 2]; [3; 4]]) (ABool true)
    examples.capped
  = (Err TypeError, examples.capped).
Proof.
  apply (cap_call_raises (T2 [[1; 2]; [3; 4]]) examples.capped 1000000).
  - reflexivity.
  - cbn. unfold default_max_accumulations. lra.
Defined.

End normalizer_facts.

(** ** The integrators *)

(** C4. The claim: the cloth model's [_update] returns
    [2 * world_pos + inverse(raw_output) - prev|world_pos].  On the code
    the first statement of [_update] is
    [self._output_normalizer.inverse(per_node_network_output)], and
    [inverse] raises (see C1): for every model, all inputs and every
    network output [_update] raises [TypeError], the scenario of the
    specification included, and no position is returned. *)
Theorem cloth_update_raises (self : cloth_model.Model)
    (inputs : gmap string value) (per_node_network_output : tensor) :
  cloth_model._update self inputs per_node_network_output = Err TypeError.
Proof.
  unfold cloth_model._update, inverse. by rewrite std_raises.
Qed.

(** C5. The claim: the plate model's [_update] returns the triple
    [(world_pos + velocity, world_pos, velocity)] with
    [velocity = inverse(raw_output)].  On the code the first statement
    of [_update] is
    [self._output_normalizer.inverse(per_node_network_output)], and
    [inverse] raises (see C1): for every model, all inputs and every
    network output [_update] raises [TypeError], and no triple is
    returned. *)
Theorem plate_update_raises (self : deform_model.Model)
    (inputs : gmap string value) (per_node_network_output : tensor) :
  deform_model._update self inputs per_node_network_output = Err TypeError.
Proof.
  unfold deform_model._update, inverse. by rewrite std_raises.
Qed.

(** ** Choice of the core *)

(** C10. A name that is none of the five keys of the table makes
    [select_core_model] return [encode_process_decode]; the function has
    no failing path. *)
Theorem select_core_model_falls_back (core_model_name : string) :
  core_model_name <> "encode_process_decode" ->
  core_model_name <> "encode_process_decode_graph_structure_watcher" ->
  core_model_name <> "encode_process_decode_hub" ->
  core_model_name <> "encode_process_decode_max_pooling" ->
  core_model_name <> "encode_process_decode_lstm" ->
  cloth_model.select_core_model core_model_name = encode_process_decode.
Proof.
  intros H1 H2 H3 H4 H5. unfold cloth_model.select_core_model.
  rewrite !lookup_insert_ne by done.
  rewrite lookup_singleton_ne by done. reflexivity.
Qed.

Lemma select_core_model_falls_back_witness :
  cloth_model.select_core_model "graph_attention" = encode_process_decode.
Proof.
  apply select_core_model_falls_back; discriminate.
Defined.

(** The five names of the table select their own module. *)
Lemma select_core_model_known :
  cloth_model.select_core_model "encode_process_decode_hub"
    = encode_process_decode_hub /\
  cloth_model.select_core_model "encode_process_decode_lstm"
    = encode_process_decode_lstm /\
  cloth_model.select_core_model "encode_process_decode_max_pooling"
    = encode_process_decode_max_pooling /\
  cloth_model.select_core_model
      "encode_process_decode_graph_structure_watcher"
    = encode_process_decode_graph_structure_watcher /\
  cloth_model.select_core_model "encode_process_decode"
    = encode_process_decode.
Proof. repeat split; reflexivity. Qed.

(** C9. Whenever the plate model's [__init__] returns a model [m], the
    core module of [m] is [encode_process_decode] and the learned model
    of [m] was built by that module's constructor; the [core_model_name]
    argument is only stored: with any other value for it the constructor
    succeeds as well, with the same core module and the same learned
    model. *)
Theorem deform_core_model_fixed
    (EncodeProcessDecode :
       module -> param -> Z -> Z -> Z -> string -> bool -> bool ->
       option deform_model.ripple_options -> result deform_model.learned)
    (params : gmap string param)
    (core_model_name : deform_model.name_or_module)
    (aggregator : string) (steps : Z) (attention ripple_used : bool)
    (ripple : deform_model.ripple_options) (m : deform_model.Model) :
  deform_model.__init__ EncodeProcessDecode params core_model_name
    aggregator steps attention ripple_used ripple = Ok m ->
  deform_model.core_model m = encode_process_decode /\
  deform_model.core_model_name m = core_model_name /\
  (exists output_size,
     EncodeProcessDecode encode_process_decode output_size 128%Z 2%Z steps
       aggregator attention ripple_used (deform_model._ripple m)
     = Ok (deform_model.learned_model m)) /\
  (forall other : deform_model.name_or_module,
     exists m',
       deform_model.__init__ EncodeProcessDecode params other aggregator
         steps attention ripple_used ripple = Ok m' /\
       deform_model.core_model m' = encode_process_decode /\
       deform_model.learned_model m' = deform_model.learned_model m).
Proof.
  unfold deform_model.__init__. intros H.
  destruct (getitem params "model" ≫= __name__) as [model_type|e];
    [|discriminate].
  rewrite bind_ok in H.
  destruct (getitem params "size") as [output_size|e]; [|discriminate].
  rewrite bind_ok in H.
  destruct (EncodeProcessDecode _ _ _ _ _ _ _ _ _) as [lm|e] eqn:Hlm;
    [|discriminate].
  rewrite bind_ok in H. injection H as <-. cbn.
  split; [reflexivity|]. split; [reflexivity|]. split.
  - exists output_size. exact Hlm.
  - intros other. rewrite Hlm, bind_ok. eexists.
    split; [reflexivity|]. split; reflexivity.
Qed.

Lemma deform_core_model_fixed_witness :
  exists m,
    deform_model.__init__ (fun _ _ _ _ _ _ _ _ _ => Ok examples.no_core)
      examples.plate_params
      (deform_model.ByName "encode_process_decode_hub") "sum" 15 false false
      examples.no_ripple = Ok m /\
    deform_model.core_model m = encode_process_decode.
Proof.
  eexists. split; [reflexivity|].
  refine (proj1 (deform_core_model_fixed
            (fun _ _ _ _ _ _ _ _ _ => Ok examples.no_core)
            examples.plate_params
            (deform_model.ByName "encode_process_decode_hub") "sum" 15
            false false examples.no_ripple _ _)).
  reflexivity.
Defined.

(** ** The segment reducer *)

Lemma scatter_rows reduce data s n r :
  deform_model.scatter reduce data s n = Ok r -> head (size r) = Some n.
Proof.
  unfold deform_model.scatter. intros H.
  destruct data as [x|v|m], s as [sv|sm]; try discriminate.
  - destruct (forallb _ sv); [|discriminate]. injection H as <-.
    cbn. by rewrite length_map, length_seq.
  - destruct (forallb _ sm); [|discriminate]. injection H as <-.
    cbn. by rewrite length_map, length_seq.
Qed.

Lemma scatter_total reduce data (sv : list nat) n :
  head (size data) = Some (length sv) ->
  Forall (fun i => i < n) sv ->
  exists r,
    deform_model.scatter reduce data
      match data with
      | T2 m => deform_model.I2 (map (replicate (ncols m)) sv)
      | _ => deform_model.I1 sv
      end n = Ok r.
Proof.
  intros Hrows Hin. destruct data as [x|v|m]; [discriminate| |]; cbn.
  - rewrite forallb_holds; [eexists; reflexivity|].
    eapply Forall_impl; [exact Hin|]. cbn. intros i Hi.
    by apply bool_decide_eq_true_2.
  - rewrite forallb_holds; [eexists; reflexivity|].
    apply Forall_map. eapply Forall_impl; [exact Hin|]. cbn. intros i Hi.
    apply forallb_holds, Forall_replicate.
    by apply bool_decide_eq_true_2.
Qed.

Lemma assert_shapes data (sv : list nat) :
  head (size data) = Some (length sv) ->
  forallb (fun i => bool_decide (i ∈ size data))
          (deform_model.ids_shape (deform_model.I1 sv)) = true /\
  bool_decide
    (size data =
     deform_model.ids_shape
       match data with
       | T2 m => deform_model.I2 (map (replicate (ncols m)) sv)
       | _ => deform_model.I1 sv
       end) = true.
Proof.
  intros Hrows. destruct data as [x|v|m]; [discriminate| |];
    cbn in Hrows; injection Hrows as Hrows; cbn.
  - rewrite Hrows. split.
    + rewrite bool_decide_eq_true_2 by apply list_elem_of_here. reflexivity.
    + by apply bool_decide_eq_true_2.
  - rewrite Hrows. split.
    + rewrite bool_decide_eq_true_2 by apply list_elem_of_here. reflexivity.
    + apply bool_decide_eq_true_2. rewrite length_map. do 2 f_equal.
      destruct m as [|r m], sv as [|i sv]; try discriminate; cbn;
        [reflexivity|]. by rewrite length_replicate.
Qed.

(** The reducer on small inputs: segments 0 and 2 are filled, segment 1
    is empty and reduces to zero; rank-1 indices are repeated along the
    columns of rank-2 data. *)
Example segment_sum :
  deform_model.unsorted_segment_operation (T1 [1; 5; 2]%R)
    (deform_model.I1 [0; 2; 0]%nat) 3 "sum"
  = Ok (T1 [3; 0; 5]%R).
Proof.
  vm_compute. do 2 f_equal.
  repeat (apply (f_equal2 cons); [lra|]). reflexivity.
Qed.

Example segment_max :
  deform_model.unsorted_segment_operation (T1 [1; 5; 2]%R)
    (deform_model.I1 [0; 2; 0]%nat) 3 "max"
  = Ok (T1 [2; 0; 5]%R).
Proof.
  cbv -[Rmax IZR]. do 3 f_equal. apply Rmax_left. lra.
Qed.

Example segment_rows_repeat :
  deform_model.unsorted_segment_operation (T2 [[1; 2]; [3; 4]]%R)
    (deform_model.I1 [1; 1]%nat) 2 "sum"
  = Ok (T2 [[0; 0]; [4; 6]]%R).
Proof.
  vm_compute. do 2 f_equal.
  repeat (apply (f_equal2 cons);
          [repeat (apply (f_equal2 cons); [lra|]); reflexivity|]).
  reflexivity.
Qed.

(** C8. For [unsorted_segment_operation] on any data, segment indices
    and number of segments: (1) an operation name other than "sum",
    "mean", "max" and "min" makes the call raise, whatever else holds;
    (2) under one of the four names, a result that is returned has
    [num_segments] as the size of its first dimension; (3) and a result
    is returned when the indices are a rank-1 tensor with one index per
    row of the data, each below [num_segments]. *)
Theorem segment_operation_names (data : tensor)
    (segment_ids : deform_model.ids) (num_segments : nat)
    (operation : string) :
  (operation ∉ ["sum"; "mean"; "max"; "min"] ->
     exists e,
       deform_model.unsorted_segment_operation data segment_ids
         num_segments operation = Err e) /\
  (operation ∈ ["sum"; "mean"; "max"; "min"] ->
     forall r,
       deform_model.unsorted_segment_operation data segment_ids
         num_segments operation = Ok r ->
       head (size r) = Some num_segments) /\
  (operation ∈ ["sum"; "mean"; "max"; "min"] ->
     forall sv,
       segment_ids = deform_model.I1 sv ->
       head (size data) = Some (length sv) ->
       Forall (fun i => i < num_segments) sv ->
       exists r,
         deform_model.unsorted_segment_operation data segment_ids
           num_segments operation = Ok r).
Proof.
  unfold deform_model.unsorted_segment_operation. split; [|split].
  - intros Hop.
    destruct (deform_model.assert (forallb _ _) _) as [[]|e];
      [|eexists; reflexivity].
    rewrite bind_ok.
    destruct (deform_model.assert (bool_decide _) _) as [[]|e];
      [|eexists; reflexivity].
    rewrite bind_ok.
    repeat case_decide;
      try solve [subst; exfalso; apply Hop; repeat constructor].
    eexists; reflexivity.
  - intros _ r H.
    destruct (deform_model.assert (forallb _ _) _) as [[]|e];
      [|discriminate].
    rewrite bind_ok in H.
    destruct (deform_model.assert (bool_decide _) _) as [[]|e];
      [|discriminate].
    rewrite bind_ok in H.
    repeat case_decide;
      try (destruct (deform_model.scatter _ _ _ _) as [r'|e] eqn:Hsc;
           [|discriminate];
           rewrite bind_ok in H; injection H as <-;
           exact (scatter_rows _ _ _ _ _ Hsc)).
    discriminate.
  - intros Hop sv -> Hrows Hin.
    destruct (assert_shapes data sv Hrows) as [-> ->].
    cbn [deform_model.assert]. rewrite !bind_ok.
    repeat case_decide;
      try (match goal with
           | |- context [deform_model.scatter ?red _ _ _] =>
               destruct (scatter_total red data sv num_segments Hrows Hin)
                 as [r ->]
           end; rewrite bind_ok; eexists; reflexivity).
    repeat (apply elem_of_cons in Hop as [Hop|Hop]; [congruence|]).
    by apply elem_of_nil in Hop.
Qed.

Lemma segment_operation_names_witness :
  (exists e,
     deform_model.unsorted_segment_operation (T1 [1; 5; 2]%R)
       (deform_model.I1 [0; 2; 0]%nat) 3 "prod" = Err e) /\
  (exists r,
     deform_model.unsorted_segment_operation (T1 [1; 5; 2]%R)
       (deform_model.I1 [0; 2; 0]%nat) 3 "max" = Ok r /\
     head (size r) = Some 3%nat).
Proof.
  split.
  - apply (proj1 (segment_operation_names _ _ _ "prod")).
    intros H. repeat (apply elem_of_cons in H as [H|H]; [discriminate|]).
    by apply elem_of_nil in H.
  - assert ("max" ∈ ["sum"; "mean"; "max"; "min"]) as Hmax
      by (do 2 apply list_elem_of_further; apply list_elem_of_here).
    destruct (proj2 (proj2 (segment_operation_names
                (T1 [1; 5; 2]%R) (deform_model.I1 [0; 2; 0]%nat) 3 "max"))
                Hmax [0; 2; 0]%nat) as [r Hr].
    + reflexivity.
    + reflexivity.
    + repeat constructor.
    + exists r. split; [exact Hr|].
      exact (proj1 (proj2 (segment_operation_names _ _ _ "max")) Hmax r Hr).
Defined.

(** ** Which forward passes can change a normalizer *)

Lemma preserves_ret {S A} (a : A) : preserves (mret a : stateful S A).
Proof. intros s. reflexivity. Qed.

Lemma preserves_reading {S A} (f : S -> result A) : preserves (reading f).
Proof. intros s. reflexivity. Qed.

Lemma preserves_bind {S A B} (m : stateful S A) (f : A -> stateful S B) :
  preserves m -> (forall a, preserves (f a)) -> preserves (m ≫= f).
Proof.
  intros Hm Hf s. unfold mbind, stateful_bind.
  specialize (Hm s). destruct (m s) as [[a|e] s']; cbn in Hm; subst.
  - apply Hf.
  - reflexivity.
Qed.

Lemma raises_preserves {S A} (m : stateful S A) : raises m -> preserves m.
Proof. intros Hm s. destruct (Hm s) as [e ->]. reflexivity. Qed.

Lemma raises_bind_l {S A B} (m : stateful S A) (f : A -> stateful S B) :
  raises m -> raises (m ≫= f).
Proof.
  intros Hm s. unfold mbind, stateful_bind. destruct (Hm s) as [e ->].
  by exists e.
Qed.

Lemma raises_bind_r {S A B} (m : stateful S A) (f : A -> stateful S B) :
  preserves m -> (forall a, raises (f a)) -> raises (m ≫= f).
Proof.
  intros Hm Hf s. unfold mbind, stateful_bind.
  specialize (Hm s). destruct (m s) as [[a|e] s']; cbn in Hm; subst.
  - apply Hf.
  - by exists e.
Qed.

Lemma preserves_on_attr {S T A} (get : S -> T) (set : T -> S -> S)
    (m : stateful T A) :
  (forall s, set (get s) s = s) -> preserves m ->
  preserves (on_attr get set m).
Proof.
  intros Hlens Hm s. unfold on_attr. specialize (Hm (get s)).
  destruct (m (get s)) as [r t]. cbn in *. subst. apply Hlens.
Qed.

Lemma raises_on_attr {S T A} (get : S -> T) (set : T -> S -> S)
    (m : stateful T A) :
  (forall s, set (get s) s = s) -> raises m -> raises (on_attr get set m).
Proof.
  intros Hlens Hm s. unfold on_attr. destruct (Hm (get s)) as [e ->].
  exists e. by rewrite Hlens.
Qed.

(** A call that is told not to accumulate never reaches [_accumulate]:
    it leaves the normalizer alone whatever [Tensor.add] does. *)
Lemma call_without_accumulate_preserves {library_add : TensorAdd} x a :
  truthy a = Ok false -> preserves (__call__ x a).
Proof.
  intros Ha self. by rewrite call_without_accumulate.
Qed.

Lemma call_evaluation_preserves {library_add : TensorAdd} x :
  preserves (call [ATensor x; ABool false]).
Proof. by apply call_without_accumulate_preserves. Qed.

(** [__call__(self, batched_data, accumulate=True)] does not take three
    positional arguments. *)
Lemma call_three_arguments_raises {library_add : TensorAdd} a b c :
  raises (call [a; b; c]).
Proof.
  intros self. exists TypeError. destruct a; reflexivity.
Qed.

Lemma cloth_build_graph_evaluation {library_add : TensorAdd}
    NodeType_SIZE triangles_to_edges inputs :
  preserves (cloth_model._build_graph NodeType_SIZE triangles_to_edges
               inputs false).
Proof.
  unfold cloth_model._build_graph.
  apply preserves_bind; [apply preserves_reading|].
  intros [[[[[nf ef] snd] rcv] wp] mp].
  apply preserves_bind.
  { apply preserves_on_attr; [by intros []|apply call_evaluation_preserves]. }
  intros ef'. apply preserves_bind; [apply preserves_reading|].
  intros hub. apply preserves_bind.
  { apply preserves_on_attr; [by intros []|apply call_evaluation_preserves]. }
  intros nf'. destruct hub; apply preserves_ret.
Qed.

Lemma cloth_forward_evaluation {library_add : TensorAdd}
    NodeType_SIZE triangles_to_edges inputs :
  preserves (cloth_model.forward NodeType_SIZE triangles_to_edges
               inputs false).
Proof.
  unfold cloth_model.forward.
  apply preserves_bind; [apply cloth_build_graph_evaluation|].
  intros graph. apply preserves_reading.
Qed.

(** The plate model's [_build_graph] calls its world-edge normalizer
    with three positional arguments, so every run of it ends there, in
    a [TypeError] or in an earlier exception, before any normalizer has
    been called. *)
Lemma deform_build_graph_raises {library_add : TensorAdd}
    NodeType_SIZE OBSTACLE HANDLE triangles_to_edges inputs is_training :
  raises (deform_model._build_graph NodeType_SIZE OBSTACLE HANDLE
            triangles_to_edges inputs is_training).
Proof.
  unfold deform_model._build_graph.
  apply raises_bind_r; [apply preserves_reading|].
  intros [[[wp twp] nt] oh].
  apply raises_bind_r; [apply preserves_reading|].
  intros [[[snd rcv] mp] rmp].
  apply raises_bind_r; [apply preserves_reading|].
  intros [[ws wr] wef].
  apply raises_bind_l, raises_on_attr; [by intros []|].
  apply call_three_arguments_raises.
Qed.

Lemma deform_forward_raises {library_add : TensorAdd}
    NodeType_SIZE OBSTACLE HANDLE triangles_to_edges inputs is_training :
  raises (deform_model.forward NodeType_SIZE OBSTACLE HANDLE
            triangles_to_edges inputs is_training).
Proof.
  unfold deform_model.forward.
  apply raises_bind_l, deform_build_graph_raises.
Qed.

(** C7. An evaluation-mode forward pass ([is_training = False]) of the
    cloth model and of the plate model leaves the model as it was, its
    normalizers (sums, sums of squares, counts, event counters) included;
    this holds for every input, every behaviour of [Tensor.add], every
    [common.triangles_to_edges] and every learned core.  The cloth model
    hands [is_training] to its normalizers as [accumulate]; the plate
    model's pass ends in an exception before a normalizer is reached. *)
Theorem evaluation_freezes_normalizers {library_add : TensorAdd} :
  (forall NodeType_SIZE triangles_to_edges inputs (self : cloth_model.Model),
     (cloth_model.forward NodeType_SIZE triangles_to_edges inputs false
        self).2 = self) /\
  (forall NodeType_SIZE OBSTACLE HANDLE triangles_to_edges inputs
          (self : deform_model.Model),
     (deform_model.forward NodeType_SIZE OBSTACLE HANDLE triangles_to_edges
        inputs false self).2 = self).
Proof.
  split.
  - intros. apply cloth_forward_evaluation.
  - intros. apply raises_preserves, deform_forward_raises.
Qed.

(** ** World edges of the plate model *)

Example one_hot_rows :
  one_hot [0%Z; 2%Z] 3 = Ok (T2 [[1; 0; 0]; [0; 0; 1]]%R).
Proof. reflexivity. Qed.

Example one_hot_refuses : one_hot [3%Z] 3 = Err RuntimeError.
Proof. reflexivity. Qed.

Example nonzero_pairs :
  nonzero [[0; 1]; [1; 0]]%R = [(0, 1); (1, 0)]%nat.
Proof.
  unfold nonzero. cbn.
  rewrite !(decide_True (P := 0%R = 0%R)) by reflexivity.
  rewrite !(decide_False (P := 1%R = 0%R)) by lra.
  reflexivity.
Qed.

Lemma entry_map {A B} (f : A -> B) (m : list (list A)) i j :
  entry (map (map f) m) i j = f <$> entry m i j.
Proof.
  unfold entry. rewrite lookup_map. destruct (m !! i) as [row|]; cbn;
    [apply lookup_map | reflexivity].
Qed.

Lemma shape_map {A B} (f : A -> B) rows cols (m : list (list A)) :
  shape rows cols m -> shape rows cols (map (map f) m).
Proof.
  intros [Hr Hc]. split; [by rewrite length_map|].
  apply Forall_map. eapply Forall_impl; [exact Hc|]. cbn. intros r Hlen.
  by rewrite length_map.
Qed.

Lemma entry_bounds {A} rows cols (m : list (list A)) i j x :
  shape rows cols m -> entry m i j = Some x -> i < rows /\ j < cols.
Proof.
  intros [Hr Hc] H. unfold entry in H.
  destruct (m !! i) as [row|] eqn:Hrow; [|discriminate]. cbn in H.
  split.
  - rewrite <- Hr. eapply lookup_lt_Some. exact Hrow.
  - rewrite Forall_forall in Hc. rewrite <- (Hc row).
    + eapply lookup_lt_Some. exact H.
    + eapply list_elem_of_lookup_2. exact Hrow.
Qed.

Lemma where_scalars (cond : list (list bool)) (x y : R) :
  where_ cond (T0 x) (T0 y)
  = Ok (map (map (fun c : bool => if c then x else y)) cond).
Proof.
  unfold where_, as_rows.
  rewrite (broadcast_scalar_rows (fun (c : bool) (x : R) => (c, x))).
  rewrite bind_ok.
  rewrite (broadcast_scalar_rows
             (fun (cx : bool * R) (y : R) => if cx.1 then cx.2 else y)).
  rewrite map_map. f_equal. apply map_ext. intros r. apply map_map.
Qed.

Lemma where_masked rows cols (cond : list (list bool)) (x : R)
    (m : list (list R)) :
  shape rows cols cond -> shape rows cols m ->
  where_ cond (T0 x) (T2 m)
  = Ok (zip_with (zip_with (fun (c : bool) y => if c then x else y)) cond m).
Proof.
  intros Hc Hm. unfold where_, as_rows.
  rewrite (broadcast_scalar_rows (fun (c : bool) (x : R) => (c, x))).
  rewrite bind_ok.
  rewrite (broadcast_matrix
             (fun (cx : bool * R) (y : R) => if cx.1 then cx.2 else y)
             rows cols) by (try apply shape_map; assumption).
  f_equal. destruct Hc as [_ Hc]. clear Hm. revert m.
  induction cond as [|c cond IH]; intros [|r m]; cbn; try reflexivity.
  inversion Hc; subst. rewrite IH by assumption. f_equal.
  clear. revert r. induction c as [|b c IH]; intros [|y r]; cbn;
    try reflexivity.
  by rewrite IH.
Qed.

Lemma entry_zip_with {A B C} (f : A -> B -> C) (m : list (list A))
    (n : list (list B)) i j :
  entry (zip_with (zip_with f) m n) i j
  = entry m i j ≫= fun a => entry n i j ≫= fun b => Some (f a b).
Proof.
  unfold entry. rewrite lookup_zip_with.
  destruct (m !! i) as [r|]; cbn; [|reflexivity].
  destruct (n !! i) as [s|]; cbn.
  - apply lookup_zip_with.
  - by destruct (r !! j).
Qed.

Lemma entry_fill_diagonal (m : list (list R)) (x : R) i j :
  entry (fill_diagonal_ m x) i j
  = if decide (i = j) then (fun _ => x) <$> entry m i j else entry m i j.
Proof.
  unfold entry, fill_diagonal_. rewrite list_lookup_imap.
  destruct (m !! i) as [row|]; cbn; [|by case_decide].
  rewrite list_lookup_insert.
  destruct (decide (i = j)) as [<-|Hij].
  - destruct (decide (i = i /\ i < length row)) as [[_ Hlt]|Hge].
    + destruct (lookup_lt_is_Some_2 row i) as [y ->]; [lia|]. reflexivity.
    + rewrite lookup_ge_None_2 by lia. reflexivity.
  - destruct (decide (i = j /\ i < length row)) as [[Heq _]|_]; [done|].
    reflexivity.
Qed.

Lemma shape_fill_diagonal rows cols (m : list (list R)) (x : R) :
  shape rows cols m -> shape rows cols (fill_diagonal_ m x).
Proof.
  intros [Hr Hc]. unfold fill_diagonal_. split.
  - by rewrite length_imap.
  - apply Forall_forall. intros r Hin.
    apply elem_of_lookup_imap in Hin as (i & row & -> & Hrow).
    rewrite length_insert. rewrite Forall_forall in Hc. apply Hc.
    eapply list_elem_of_lookup_2. exact Hrow.
Qed.

Lemma entry_insert (m : list (list R)) (row : list R) a b x i j :
  m !! a = Some row -> b < length row ->
  entry (<[a := <[b := x]> row]> m) i j
  = if decide (i = a /\ j = b) then Some x else entry m i j.
Proof.
  intros Hrow Hb. unfold entry. rewrite list_lookup_insert.
  pose proof (lookup_lt_Some _ _ _ Hrow) as Ha.
  destruct (decide (a = i /\ a < length m)) as [[<- _]|Hne]; cbn.
  - rewrite list_lookup_insert, Hrow. cbn.
    destruct (decide (b = j /\ b < length row)) as [[<- _]|Hne].
    + by rewrite decide_True.
    + rewrite decide_False; [reflexivity|]. intros [_ ->]. apply Hne. done.
  - rewrite decide_False; [reflexivity|]. intros [-> _]. apply Hne. done.
Qed.

Lemma shape_insert rows cols (m : list (list R)) (row : list R) a b x :
  shape rows cols m -> m !! a = Some row ->
  shape rows cols (<[a := <[b := x]> row]> m).
Proof.
  intros [Hr Hc] Hrow. split; [by rewrite length_insert|].
  apply Forall_insert; [assumption|]. rewrite length_insert.
  rewrite Forall_forall in Hc. apply Hc.
  eapply list_elem_of_lookup_2. exact Hrow.
Qed.

(** [m[rows, cols] = x] with indices in range: the addressed entries
    become [x], the others stay. *)
Lemma put_all_entries rows cols (pairs : list (nat * nat)) (x : R) :
  forall m : list (list R),
  shape rows cols m ->
  Forall (fun p => p.1 < rows /\ p.2 < cols) pairs ->
  exists m',
    put_all m pairs x = Ok m' /\ shape rows cols m' /\
    forall i j,
      entry m' i j
      = if decide ((i, j) ∈ pairs) then (fun _ => x) <$> entry m i j
        else entry m i j.
Proof.
  induction pairs as [|[a b] pairs IH]; intros m Hm Hin.
  - exists m. split; [reflexivity|]. split; [assumption|].
    intros i j. rewrite decide_False; [reflexivity|]. apply not_elem_of_nil.
  - inversion Hin as [|p ps [Ha Hb] Hin']; subst. cbn in Ha, Hb.
    destruct Hm as [Hr Hc].
    destruct (lookup_lt_is_Some_2 m a) as [row Hrow]; [lia|].
    assert (length row = cols) as Hlen.
    { rewrite Forall_forall in Hc. apply Hc.
      eapply list_elem_of_lookup_2. exact Hrow. }
    destruct (lookup_lt_is_Some_2 row b) as [y Hy]; [lia|].
    destruct (IH (<[a := <[b := x]> row]> m)) as (m' & Hput & Hsh & Hent).
    { apply shape_insert; [split|]; assumption. }
    { assumption. }
    exists m'. split; [|split; [assumption|]].
    + cbn. unfold item. rewrite Hrow, bind_ok, Hy, bind_ok. exact Hput.
    + intros i j. rewrite Hent, entry_insert by (assumption || lia).
      assert (entry m a b = Some y) as Hab.
      { unfold entry. rewrite Hrow. exact Hy. }
      destruct (decide (i = a /\ j = b)) as [[-> ->]|Hne].
      * rewrite Hab. rewrite (decide_True (P := (a, b) ∈ (a, b) :: pairs))
          by apply list_elem_of_here.
        by case_decide.
      * destruct (decide ((i, j) ∈ pairs)) as [Hp|Hp].
        -- rewrite decide_True by (by apply list_elem_of_further).
           reflexivity.
        -- rewrite decide_False; [reflexivity|].
           intros [Heq|Hq]%elem_of_cons; [|done].
           injection Heq as -> ->. by apply Hne.
Qed.

Lemma column_of_copies {A} (v : list A) n j :
  j < n -> column j (map (replicate n) v) = v.
Proof.
  intros Hj. unfold column. induction v as [|b v IH]; [reflexivity|].
  cbn. rewrite lookup_replicate_2 by assumption. by rewrite IH.
Qed.

(** Stacking [n] copies of a mask along dimension 1 and transposing
    gives [n] rows that each are the mask. *)
Lemma transpose_of_copies {A} (v : list A) n :
  v <> [] -> transpose (map (replicate n) v) = replicate n v.
Proof.
  intros Hv. unfold transpose.
  assert (ncols (map (replicate n) v) = n) as ->.
  { destruct v as [|b v]; [done|]. cbn. apply length_replicate. }
  transitivity (replicate (length (seq 0 n)) v);
    [|by rewrite length_seq].
  apply (const_fmap (fun j => column j (map (replicate n) v))).
  intros i j Hij. apply column_of_copies.
  apply lookup_seq in Hij. lia.
Qed.

Lemma elem_of_nonzero (m : list (list R)) i j :
  (i, j) ∈ nonzero m <-> exists x, entry m i j = Some x /\ x <> 0%R.
Proof.
  unfold nonzero, entry. rewrite list_elem_of_In, in_concat. split.
  - intros (l & Hl & Hin).
    apply list_elem_of_In, elem_of_lookup_imap in Hl
      as (i' & row & -> & Hrow).
    apply list_elem_of_In, list_elem_of_omap in Hin as (o & Ho & ->).
    apply elem_of_lookup_imap in Ho as (j' & x & Hx & Hj').
    destruct (decide (x = 0%R)) as [|Hne]; [discriminate|].
    injection Hx as -> ->. exists x. rewrite Hrow. cbn. by split.
  - intros (x & Hx & Hne).
    destruct (m !! i) as [row|] eqn:Hrow; [|discriminate]. cbn in Hx.
    eexists. split.
    + apply list_elem_of_In. eapply (elem_of_lookup_imap_2 _ m). exact Hrow.
    + apply list_elem_of_In, list_elem_of_omap. exists (Some (i, j)).
      split; [|reflexivity].
      apply elem_of_lookup_imap. exists j, x. split; [|assumption].
      by rewrite decide_False.
Qed.

Lemma entry_cdist (P : list (list R)) i j :
  entry (map (fun p => map (euclid p) P) P) i j
  = P !! i ≫= fun p => P !! j ≫= fun q => Some (euclid p q).
Proof.
  unfold entry. rewrite lookup_map. destruct (P !! i) as [p|]; cbn;
    [|reflexivity].
  rewrite lookup_map. by destruct (P !! j).
Qed.

Lemma shape_cdist (P : list (list R)) :
  shape (length P) (length P) (map (fun p => map (euclid p) P) P).
Proof.
  split; [by rewrite length_map|]. apply Forall_map, Forall_true.
  intros p. by rewrite length_map.
Qed.

Lemma shape_copies {A} (v : list A) n : shape n (length v) (replicate n v).
Proof.
  split; [apply length_replicate|]. by apply Forall_replicate.
Qed.

Lemma entry_copies {A} (v : list A) n i j :
  i < n -> entry (replicate n v) i j = v !! j.
Proof. intros Hi. unfold entry. by rewrite lookup_replicate_2. Qed.

Lemma column0_length {A} (rows : list (list A)) (c : list A) :
  column0 rows = Ok c -> length c = length rows.
Proof.
  unfold column0. revert c. induction rows as [|r rows IH]; intros c H.
  - injection H as <-. reflexivity.
  - cbn in H. destruct (item r 0) as [x|e]; [|discriminate].
    rewrite bind_ok in H.
    destruct (traverse _ rows) as [c'|e]; [|discriminate].
    rewrite bind_ok in H. injection H as <-. cbn. by rewrite (IH c').
Qed.

Lemma shape_zip_with {A B C} (f : A -> B -> C) rows cols
    (m : list (list A)) (n : list (list B)) :
  shape rows cols m -> shape rows cols n ->
  shape rows cols (zip_with (zip_with f) m n).
Proof.
  intros [Hrm Hcm] [Hrn Hcn]. split.
  - rewrite length_zip_with. lia.
  - clear Hrm Hrn. revert n Hcn.
    induction Hcm as [|r m Hr _ IH]; intros [|s n] Hn; cbn;
      try constructor.
    + inversion Hn; subst. rewrite length_zip_with. lia.
    + inversion Hn; subst. by apply IH.
Qed.

(** The world-edge search ends in [torch.nonzero] of a square matrix
    whose entry [s][r] is not zero exactly for the pairs of the rule. *)
Lemma world_edge_search (NodeType_OBSTACLE NodeType_HANDLE : Z)
    (world_pos : list (list R)) (senders receivers : list nat)
    (node_type : list (list Z)) (types : list Z) :
  world_pos <> [] ->
  column0 node_type = Ok types ->
  length node_type = length world_pos ->
  length senders = length receivers ->
  Forall (fun i => i < length world_pos) senders ->
  Forall (fun i => i < length world_pos) receivers ->
  exists connection : list (list R),
    shape (length world_pos) (length world_pos) connection /\
    deform_model.find_world_edges NodeType_OBSTACLE NodeType_HANDLE
      (T2 world_pos) senders receivers node_type
    = Ok ((nonzero connection).*1, (nonzero connection).*2) /\
    forall s r,
      (s, r) ∈ nonzero connection <->
      exists ps pr tr,
        world_pos !! s = Some ps /\ world_pos !! r = Some pr /\
        types !! r = Some tr /\
        (euclid ps pr < deform_model.radius)%R /\
        s <> r /\
        ((s, r) ∉ zip senders receivers) /\
        tr <> NodeType_OBSTACLE /\ tr <> NodeType_HANDLE.
Proof.
  intros Hne Htypes Hnt Hlen Hs Hr.
  pose proof (column0_length _ _ Htypes) as Hlt.
  set (N := length world_pos) in *.
  assert (N <> 0%nat) as HN by (subst N; by destruct world_pos).
  unfold deform_model.find_world_edges. cbn [cdist]. rewrite bind_ok.
  rewrite where_scalars, bind_ok.
  set (D := map (fun p => map (euclid p) world_pos) world_pos).
  set (M0 := map (map (fun c : bool => if c then 1%R else 0%R))
               (map (map (fun d =>
                            bool_decide (d < deform_model.radius)%R)) D)).
  assert (shape N N M0) as HM0
    by (do 2 apply shape_map; apply shape_cdist).
  unfold setitem. rewrite (broadcast_paired pair) by assumption.
  rewrite bind_ok.
  destruct (put_all_entries N N (zip_with pair senders receivers) 0%R
              (fill_diagonal_ M0 0%R)) as (M2 & -> & HM2 & Hent).
  { by apply shape_fill_diagonal. }
  { clear -Hlen Hs Hr. revert receivers Hlen Hr.
    induction Hs as [|a senders Ha _ IH]; intros [|b receivers] Hlen Hr;
      cbn; try constructor; try discriminate.
    - inversion Hr; subst. by split.
    - inversion Hr; subst. apply IH; [by injection Hlen|assumption]. }
  rewrite bind_ok, Htypes, bind_ok. cbn [deform_model.shape0].
  rewrite bind_ok.
  unfold stack_copies_dim1. rewrite decide_False by assumption.
  rewrite bind_ok.
  set (maskv := zip_with orb
                  (deform_model.eq_code types NodeType_OBSTACLE)
                  (deform_model.eq_code types NodeType_HANDLE)).
  assert (length maskv = N) as Hmask.
  { unfold maskv, deform_model.eq_code.
    rewrite length_zip_with, !length_map. lia. }
  rewrite transpose_of_copies by (intros ->; cbn in Hmask; lia).
  assert (shape N N (replicate N maskv)) as Hcopies
    by (rewrite <- Hmask at 2; apply shape_copies).
  rewrite (where_masked N N) by assumption.
  rewrite bind_ok. eexists. split; [|split; [reflexivity|]].
  { by apply shape_zip_with. }
  intros s r. rewrite elem_of_nonzero.
  rewrite entry_zip_with.
  assert (forall t, types !! r = Some t ->
            maskv !! r = Some (bool_decide (t = NodeType_OBSTACLE)
                               || bool_decide (t = NodeType_HANDLE)))
    as Hmaskr.
  { intros t Ht. unfold maskv, deform_model.eq_code.
    rewrite lookup_zip_with, !lookup_map, Ht. reflexivity. }
  change (length world_pos) with N. split.
  - intros (x & Hx & Hxne).
    destruct (entry (replicate N maskv) s r) as [c|] eqn:Hc;
      [|discriminate]. cbn in Hx.
    destruct (entry M2 s r) as [y|] eqn:Hy; [|discriminate]. cbn in Hx.
    injection Hx as <-.
    destruct (entry_bounds _ _ _ _ _ _ HM2 Hy) as [Hsi Hri].
    rewrite entry_copies in Hc by assumption.
    destruct (lookup_lt_is_Some_2 types r) as [tr Htr]; [lia|].
    rewrite (Hmaskr tr Htr) in Hc. injection Hc as <-.
    rewrite Hent, entry_fill_diagonal in Hy.
    unfold M0 in Hy. rewrite !entry_map in Hy. unfold D in Hy.
    rewrite entry_cdist in Hy.
    destruct (world_pos !! s) as [ps|]; [|by repeat case_decide].
    destruct (world_pos !! r) as [pr|]; [|by repeat case_decide].
    cbn in Hy. exists ps, pr, tr.
    destruct (bool_decide (tr = NodeType_OBSTACLE)) eqn:Ho; [done|].
    destruct (bool_decide (tr = NodeType_HANDLE)) eqn:Hh; [done|].
    cbn in Hxne.
    apply bool_decide_eq_false in Ho, Hh.
    destruct (decide ((s, r) ∈ zip_with pair senders receivers));
      [case_decide; injection Hy as <-; done|].
    destruct (decide (s = r)); [injection Hy as <-; done|].
    injection Hy as <-.
    destruct (bool_decide (euclid ps pr < deform_model.radius)%R) eqn:Hd;
      [|done].
    apply bool_decide_eq_true in Hd. done.
  - intros (ps & pr & tr & Hps & Hpr & Htr & Hd & Hsr & Hmesh & Ho & Hh).
    pose proof (lookup_lt_Some _ _ _ Hps) as Hsi.
    exists 1%R. split; [|lra].
    rewrite entry_copies by assumption. rewrite (Hmaskr tr Htr). cbn.
    rewrite Hent, entry_fill_diagonal.
    unfold M0. rewrite !entry_map. unfold D. rewrite entry_cdist.
    rewrite Hps, Hpr. cbn.
    rewrite (decide_False (P := (s, r) ∈ _)) by assumption.
    rewrite (decide_False (P := s = r)) by assumption. cbn.
    rewrite !bool_decide_eq_false_2 by assumption.
    rewrite bool_decide_eq_true_2 by assumption. reflexivity.
Qed.

(** X1. The selection rule of the world-edge search.  Take [N >= 1]
    world positions, a node type per position (the first column of
    [node_type]) and mesh edges given by index lists of equal length
    with indices below [N].  Then the statements of the plate model's
    [_build_graph] under the comment "find world edge", up to
    [torch.nonzero], return index lists
    [(world_senders, world_receivers)], and the pair [(s, r)] is among
    them exactly when [s] and [r] are nodes whose world positions are at
    Euclidean distance strictly below [radius = 0.006], [s] differs from
    [r], [(s, r)] is not a mesh edge, and the type of [r] is neither
    OBSTACLE nor HANDLE.  (What [_build_graph] does with the lists is
    C6.) *)
Theorem world_edges_rule (NodeType_OBSTACLE NodeType_HANDLE : Z)
    (world_pos : list (list R)) (senders receivers : list nat)
    (node_type : list (list Z)) (types : list Z) :
  world_pos <> [] ->
  column0 node_type = Ok types ->
  length node_type = length world_pos ->
  length senders = length receivers ->
  Forall (fun i => i < length world_pos) senders ->
  Forall (fun i => i < length world_pos) receivers ->
  exists world_senders world_receivers,
    deform_model.find_world_edges NodeType_OBSTACLE NodeType_HANDLE
      (T2 world_pos) senders receivers node_type
    = Ok (world_senders, world_receivers) /\
    forall s r,
      (s, r) ∈ zip world_senders world_receivers <->
      exists ps pr tr,
        world_pos !! s = Some ps /\ world_pos !! r = Some pr /\
        types !! r = Some tr /\
        (euclid ps pr < deform_model.radius)%R /\
        s <> r /\
        ((s, r) ∉ zip senders receivers) /\
        tr <> NodeType_OBSTACLE /\ tr <> NodeType_HANDLE.
Proof.
  intros Hne Htypes Hnt Hlen Hs Hr.
  destruct (world_edge_search NodeType_OBSTACLE NodeType_HANDLE world_pos
              senders receivers node_type types)
    as (connection & _ & Hfind & Hrule); try assumption.
  exists (nonzero connection).*1, (nonzero connection).*2.
  split; [exact Hfind|].
  intros s r. rewrite zip_fst_snd. apply Hrule.
Qed.

(** The scenario of the specification: A and B are in contact and share
    a mesh edge, C is an obstacle. *)
Lemma world_edges_rule_witness :
  exists world_senders world_receivers,
    deform_model.find_world_edges 1 3 (T2 examples.contact_world_pos)
      [0; 1] [1; 0] examples.contact_node_type
    = Ok (world_senders, world_receivers) /\
    forall s r,
      (s, r) ∈ zip world_senders world_receivers <->
      exists ps pr tr,
        examples.contact_world_pos !! s = Some ps /\
        examples.contact_world_pos !! r = Some pr /\
        [0%Z; 0%Z; 1%Z] !! r = Some tr /\
        (euclid ps pr < deform_model.radius)%R /\
        s <> r /\
        ((s, r) ∉ zip [0; 1] [1; 0]) /\
        tr <> 1%Z /\ tr <> 3%Z.
Proof.
  apply (world_edges_rule 1 3 examples.contact_world_pos [0; 1] [1; 0]
           examples.contact_node_type [0%Z; 0%Z; 1%Z]).
  - discriminate.
  - reflexivity.
  - reflexivity.
  - reflexivity.
  - repeat constructor.
  - repeat constructor.
Defined.

(** ** Shapes of the feature tensors *)

Lemma stateful_bind_run {S A B} (m : stateful S A) (f : A -> stateful S B)
    s a s1 :
  m s = (Ok a, s1) -> (m ≫= f) s = f a s1.
Proof. intros H. unfold mbind, stateful_bind. by rewrite H. Qed.

Lemma one_hot_shape (t : list Z) (n : nat) :
  Forall (fun z => (0 <= z < Z.of_nat n)%Z) t ->
  exists oh, one_hot t n = Ok (T2 oh) /\ shape (length t) n oh.
Proof.
  intros Ht. unfold one_hot.
  rewrite (traverse_ext _
             (fun z => Ok (map (fun j => if decide (j = Z.to_nat z)
                                         then 1%R else 0%R) (seq 0 n)))).
  - rewrite traverse_pure. eexists. split; [reflexivity|]. split.
    + by rewrite length_map.
    + apply Forall_map, Forall_true. intros z. cbn.
      by rewrite length_map, length_seq.
  - eapply Forall_impl; [exact Ht|]. cbn. intros z Hz.
    by rewrite decide_True.
Qed.

Lemma cat2_shape rows c1 c2 (m1 m2 : list (list R)) :
  shape rows c1 m1 -> shape rows c2 m2 ->
  cat2 (T2 m1) (T2 m2) = Ok (T2 (zip_with app m1 m2)) /\
  shape rows (c1 + c2) (zip_with app m1 m2).
Proof.
  intros [Hr1 Hc1] [Hr2 Hc2]. unfold cat2.
  rewrite decide_True by congruence. split; [reflexivity|]. split.
  - rewrite length_zip_with. lia.
  - clear Hr1 Hr2. revert m2 Hc2.
    induction Hc1 as [|r m Hr _ IH]; intros [|s n] Hn; cbn;
      try constructor.
    + inversion Hn; subst. by rewrite length_app.
    + inversion Hn; subst. by apply IH.
Qed.

Lemma item_lookup {A} (l : list A) i x : l !! i = Some x -> item l i = Ok x.
Proof. intros H. unfold item. by rewrite H. Qed.

Lemma index_select_shape rows cols (m : list (list R)) (index : list nat) :
  shape rows cols m -> Forall (fun i => i < rows) index ->
  exists picked,
    index_select (T2 m) index = Ok (T2 picked) /\
    shape (length index) cols picked.
Proof.
  intros [Hr Hc] Hin. cbn [index_select].
  assert (exists picked, traverse (item m) index = Ok picked /\
            shape (length index) cols picked) as (picked & -> & Hsh).
  { induction Hin as [|i index Hi _ IH].
    - exists []. split; [reflexivity|]. split; [reflexivity|constructor].
    - destruct IH as (picked & Hp & Hl & Hf).
      destruct (lookup_lt_is_Some_2 m i) as [row Hrow]; [lia|].
      exists (row :: picked). cbn [traverse].
      rewrite (item_lookup _ _ _ Hrow), bind_ok.
      rewrite Hp, bind_ok. split; [reflexivity|]. split.
      + cbn. by rewrite Hl.
      + constructor; [|assumption]. rewrite Forall_forall in Hc.
        apply Hc. eapply list_elem_of_lookup_2. exact Hrow. }
  exists picked. split; [reflexivity|assumption].
Qed.

Lemma pointwise_shape f rows cols (m n : list (list R)) :
  shape rows cols m -> shape rows cols n ->
  pointwise f (T2 m) (T2 n) = Ok (T2 (zip_with (zip_with f) m n)) /\
  shape rows cols (zip_with (zip_with f) m n).
Proof.
  intros Hm Hn. split.
  - destruct Hm as [Hrm Hcm], Hn as [Hrn Hcn].
    apply (pointwise_T2_T2 f cols); [congruence|assumption|assumption].
  - destruct Hm as [Hrm Hcm], Hn as [Hrn Hcn]. split.
    + rewrite length_zip_with. lia.
    + clear Hrm Hrn. revert n Hcn.
      induction Hcm as [|r m Hr _ IH]; intros [|s n] Hn; cbn;
        try constructor.
      * inversion Hn; subst. rewrite length_zip_with. lia.
      * inversion Hn; subst. by apply IH.
Qed.

Lemma sub_shape rows cols (m n : list (list R)) :
  shape rows cols m -> shape rows cols n ->
  sub (T2 m) (T2 n) = Ok (T2 (zip_with (zip_with Rminus) m n)) /\
  shape rows cols (zip_with (zip_with Rminus) m n).
Proof. apply pointwise_shape. Qed.

Lemma norm_shape rows cols (m : list (list R)) :
  shape rows cols m ->
  norm (T2 m) true = T2 (map (fun r => [norm2 r]) m) /\
  shape rows 1 (map (fun r => [norm2 r]) m).
Proof.
  intros [Hr Hc]. split; [reflexivity|]. split; [by rewrite length_map|].
  apply Forall_map, Forall_true. reflexivity.
Qed.

(** ** The plate model *)

Lemma nonzero_in_range rows cols (m : list (list R)) :
  shape rows cols m ->
  Forall (fun i => i < rows) (nonzero m).*1 /\
  Forall (fun j => j < cols) (nonzero m).*2 /\
  length (nonzero m).*1 = length (nonzero m).*2.
Proof.
  intros Hm.
  assert (Forall (fun p : nat * nat => p.1 < rows /\ p.2 < cols)
            (nonzero m)) as Hall.
  { apply Forall_forall. intros [i j] Hin.
    apply elem_of_nonzero in Hin as (x & Hx & _).
    exact (entry_bounds _ _ _ _ _ _ Hm Hx). }
  split; [|split].
  - apply Forall_fmap. eapply Forall_impl; [exact Hall|]. by intros p [? ?].
  - apply Forall_fmap. eapply Forall_impl; [exact Hall|]. by intros p [? ?].
  - by rewrite !length_fmap.
Qed.

Section plate_world_edges.
Context {library_add : TensorAdd}.
Variable NodeType_SIZE : nat.
Variables NodeType_OBSTACLE NodeType_HANDLE : Z.
Variable triangles_to_edges :
  value -> result (gmap string (list nat * list nat)).

(** C6. The claim: the world EdgeSet of the plate model's graph contains
    [s -> r] exactly for the pairs of the selection rule.  On the code
    no world EdgeSet is ever built.  Take inputs that fit together: [N >=
    1] world positions and mesh positions, a node type below
    [NodeType.SIZE] per node, and mesh edges between existing nodes under
    the key two_way_connectivity.  The search returns its index lists,
    and every pair of the rule is among them; the next statement hands
    the features of these pairs to the world-edge normalizer with three
    positional arguments, and [_build_graph] and [forward] raise
    [TypeError] there, in training and in evaluation mode, leaving the
    model as it was. *)
Theorem world_edge_set_never_built (inputs : gmap string value)
    (is_training : bool) (self : deform_model.Model)
    (dw dm : nat) (wp mp : list (list R)) (twp : tensor)
    (nt : list (list Z)) (types : list Z) (cells : value)
    (decomposed_cells : gmap string (list nat * list nat))
    (senders receivers : list nat) :
  inputs !! "world_pos" = Some (Float (T2 wp)) ->
  inputs !! "target|world_pos" = Some (Float twp) ->
  inputs !! "node_type" = Some (Int nt) ->
  inputs !! "cells" = Some cells ->
  inputs !! "mesh_pos" = Some (Float (T2 mp)) ->
  wp <> [] ->
  shape (length wp) dw wp -> shape (length wp) dm mp ->
  length nt = length wp ->
  column0 nt = Ok types ->
  Forall (fun z => (0 <= z < Z.of_nat NodeType_SIZE)%Z) types ->
  triangles_to_edges cells = Ok decomposed_cells ->
  decomposed_cells !! "two_way_connectivity" = Some (senders, receivers) ->
  length senders = length receivers ->
  Forall (fun i => i < length wp) senders ->
  Forall (fun i => i < length wp) receivers ->
  (exists world_senders world_receivers,
     deform_model.find_world_edges NodeType_OBSTACLE NodeType_HANDLE
       (T2 wp) senders receivers nt
     = Ok (world_senders, world_receivers) /\
     forall s r ps pr tr,
       wp !! s = Some ps -> wp !! r = Some pr -> types !! r = Some tr ->
       (euclid ps pr < deform_model.radius)%R ->
       s <> r ->
       (s, r) ∉ zip senders receivers ->
       tr <> NodeType_OBSTACLE -> tr <> NodeType_HANDLE ->
       (s, r) ∈ zip world_senders world_receivers) /\
  deform_model._build_graph NodeType_SIZE NodeType_OBSTACLE NodeType_HANDLE
    triangles_to_edges inputs is_training self
  = (Err TypeError, self) /\
  deform_model.forward NodeType_SIZE NodeType_OBSTACLE NodeType_HANDLE
    triangles_to_edges inputs is_training self
  = (Err TypeError, self).
Proof.
  intros Hwp Htwp Hnt Hcells Hmp Hne Swp Smp Hlen Htypes Hrange Ht2e Htwo
    Hlsr Hs Hr.
  destruct (world_edge_search NodeType_OBSTACLE NodeType_HANDLE wp
              senders receivers nt types)
    as (connection & Sc & Hfind & Hrule); try assumption.
  destruct (nonzero_in_range _ _ _ Sc) as (Hws & Hwr & Hlw).
  set (world_senders := (nonzero connection).*1) in *.
  set (world_receivers := (nonzero connection).*2) in *.
  assert (deform_model._build_graph NodeType_SIZE NodeType_OBSTACLE
            NodeType_HANDLE triangles_to_edges inputs is_training self
          = (Err TypeError, self)) as Hbuild.
  { destruct (one_hot_shape types NodeType_SIZE Hrange) as (oh & Hoh & _).
    destruct (index_select_shape _ _ mp senders Smp Hs) as (ms & Hms & Sms).
    destruct (index_select_shape _ _ mp receivers Smp Hr)
      as (mr & Hmr & Smr).
    rewrite <- Hlsr in Smr.
    destruct (sub_shape _ _ ms mr Sms Smr) as [Hrm _].
    destruct (index_select_shape _ _ wp world_senders Swp Hws)
      as (ws & Hsel_s & Sws).
    destruct (index_select_shape _ _ wp world_receivers Swp Hwr)
      as (wr & Hsel_r & Swr).
    rewrite <- Hlw in Swr.
    destruct (sub_shape _ _ ws wr Sws Swr) as [Hrw Srw].
    destruct (norm_shape _ _ _ Srw) as [Hnorm Snw].
    destruct (cat2_shape _ _ _ _ _ Srw Snw) as [Hcat _].
    unfold deform_model._build_graph.
    rewrite (stateful_bind_run _ _ self (T2 wp, twp, nt, T2 oh) self);
      cycle 1.
    { unfold reading. f_equal.
      rewrite (getitem_lookup _ _ _ Hwp), !bind_ok. cbn [as_float].
      rewrite !bind_ok, (getitem_lookup _ _ _ Htwp), !bind_ok.
      cbn [as_float].
      rewrite !bind_ok, (getitem_lookup _ _ _ Hnt), !bind_ok. cbn [as_int].
      rewrite !bind_ok, Htypes, !bind_ok, Hoh, bind_ok. reflexivity. }
    cbv beta iota.
    rewrite (stateful_bind_run _ _ self
               (senders, receivers, T2 mp,
                T2 (zip_with (zip_with Rminus) ms mr)) self); cycle 1.
    { unfold reading. f_equal.
      rewrite (getitem_lookup _ _ _ Hcells), bind_ok, Ht2e, bind_ok.
      rewrite (getitem_lookup _ _ _ Htwo), bind_ok.
      rewrite (getitem_lookup _ _ _ Hmp), !bind_ok. cbn [as_float].
      rewrite !bind_ok, Hms, bind_ok, Hmr, bind_ok, Hrm, bind_ok.
      reflexivity. }
    cbv beta iota.
    rewrite (stateful_bind_run _ _ self
               (world_senders, world_receivers,
                T2 (zip_with app (zip_with (zip_with Rminus) ws wr)
                      (map (fun r => [norm2 r])
                         (zip_with (zip_with Rminus) ws wr)))) self);
      cycle 1.
    { unfold reading. f_equal.
      rewrite Hfind, bind_ok, Hsel_s, bind_ok, Hsel_r, bind_ok.
      rewrite Hrw, bind_ok, Hnorm. cbn [cat foldl].
      rewrite bind_ok, Hcat, bind_ok. reflexivity. }
    cbv beta iota.
    unfold mbind at 1, stateful_bind, on_attr. cbn [call].
    by destruct self. }
  split; [|split; [exact Hbuild|]].
  - exists world_senders, world_receivers. split; [exact Hfind|].
    intros s r ps pr tr Hps Hpr Htr Hd Hsr Hmesh Ho Hh.
    unfold world_senders, world_receivers. rewrite zip_fst_snd.
    apply Hrule. by exists ps, pr, tr.
  - unfold deform_model.forward.
    unfold mbind at 1, stateful_bind. by rewrite Hbuild.
Qed.

End plate_world_edges.

(** The scenario of the specification as inputs of a pass: the
    obstacle C is within the radius of A and of B, so C -> A and C -> B
    are pairs of the rule, and the pass raises. *)
Lemma world_edge_set_never_built_witness :
  (exists world_senders world_receivers,
     deform_model.find_world_edges 1 3 (T2 examples.contact_world_pos)
       [0; 1] [1; 0] examples.contact_node_type
     = Ok (world_senders, world_receivers) /\
     forall s r ps pr tr,
       examples.contact_world_pos !! s = Some ps ->
       examples.contact_world_pos !! r = Some pr ->
       [0%Z; 0%Z; 1%Z] !! r = Some tr ->
       (euclid ps pr < deform_model.radius)%R ->
       s <> r ->
       (s, r) ∉ zip [0; 1] [1; 0] ->
       tr <> 1%Z -> tr <> 3%Z ->
       (s, r) ∈ zip world_senders world_receivers) /\
  @deform_model._build_graph documented_add 9 1 3 scenarios.contact_edges
    scenarios.contact_inputs false examples.plate_model
  = (Err TypeError, examples.plate_model) /\
  @deform_model.forward documented_add 9 1 3 scenarios.contact_edges
    scenarios.contact_inputs false examples.plate_model
  = (Err TypeError, examples.plate_model).
Proof.
  apply (world_edge_set_never_built 9 1 3 scenarios.contact_edges
           scenarios.contact_inputs false examples.plate_model 3 2
           examples.contact_world_pos [[0; 0]; [1; 0]; [0; 1]]%R
           (T2 examples.contact_world_pos) examples.contact_node_type
           [0%Z; 0%Z; 1%Z] (Int [[0%Z; 1%Z; 2%Z]])
           {[ "two_way_connectivity" := ([0; 1], [1; 0]) ]}
           [0; 1] [1; 0]).
  - reflexivity.
  - reflexivity.
  - reflexivity.
  - reflexivity.
  - reflexivity.
  - discriminate.
  - split; [reflexivity|repeat constructor].
  - split; [reflexivity|repeat constructor].
  - reflexivity.
  - reflexivity.
  - repeat constructor; lia.
  - reflexivity.
  - reflexivity.
  - reflexivity.
  - repeat constructor; cbn; lia.
  - repeat constructor; cbn; lia.
Defined.

Section plate_never_returns.
Context {library_add : TensorAdd}.
Variable NodeType_SIZE : nat.
Variables NodeType_OBSTACLE NodeType_HANDLE : Z.
Variable triangles_to_edges :
  value -> result (gmap string (list nat * list nat)).

(** X12. The plate model never gets through a pass.  [_build_graph]
    calls the world-edge normalizer with three positional arguments,
    one more than [Normalizer.__call__] takes, so for all inputs, in
    training and in evaluation mode, whatever [Tensor.add],
    [triangles_to_edges] and the learned model do, [_build_graph] and
    [forward] end in an exception and leave the model as it was. *)
Theorem plate_forward_never_returns (inputs : gmap string value)
    (is_training : bool) (self : deform_model.Model) :
  (exists e,
     deform_model._build_graph NodeType_SIZE NodeType_OBSTACLE
       NodeType_HANDLE triangles_to_edges inputs is_training self
     = (Err e, self)) /\
  (exists e,
     deform_model.forward NodeType_SIZE NodeType_OBSTACLE NodeType_HANDLE
       triangles_to_edges inputs is_training self
     = (Err e, self)).
Proof.
  split.
  - apply deform_build_graph_raises.
  - apply deform_forward_raises.
Qed.

(** X13. [forward] of the plate model reads its inputs in the order
    world_pos, target|world_pos, node_type.  The first of them that is
    missing ends the pass, in either mode, in a [KeyError] naming it, and
    the model is left as it was. *)
Theorem plate_missing_input (inputs : gmap string value)
    (is_training : bool) (self : deform_model.Model) :
  (inputs !! "world_pos" = None ->
   deform_model.forward NodeType_SIZE NodeType_OBSTACLE NodeType_HANDLE
     triangles_to_edges inputs is_training self
   = (Err (KeyError "world_pos"), self)) /\
  (forall wp, inputs !! "world_pos" = Some (Float wp) ->
   inputs !! "target|world_pos" = None ->
   deform_model.forward NodeType_SIZE NodeType_OBSTACLE NodeType_HANDLE
     triangles_to_edges inputs is_training self
   = (Err (KeyError "target|world_pos"), self)) /\
  (forall wp twp, inputs !! "world_pos" = Some (Float wp) ->
   inputs !! "target|world_pos" = Some (Float twp) ->
   inputs !! "node_type" = None ->
   deform_model.forward NodeType_SIZE NodeType_OBSTACLE NodeType_HANDLE
     triangles_to_edges inputs is_training self
   = (Err (KeyError "node_type"), self)).
Proof.
  unfold deform_model.forward, deform_model._build_graph, reading,
    mbind at 1 2, stateful_bind, getitem.
  split; [|split].
  - intros ->. reflexivity.
  - intros wp -> ->. reflexivity.
  - intros wp twp -> -> ->. reflexivity.
Qed.

End plate_never_returns.

Lemma plate_missing_input_witness :
  @deform_model.forward documented_add 9 1 3 (fun _ => Err RuntimeError)
    ∅ false examples.plate_model
  = (Err (KeyError "world_pos"), examples.plate_model) /\
  @deform_model.forward documented_add 9 1 3 (fun _ => Err RuntimeError)
    examples.plate_inputs false examples.plate_model
  = (Err (KeyError "target|world_pos"), examples.plate_model) /\
  @deform_model.forward documented_add 9 1 3 (fun _ => Err RuntimeError)
    (<[ "target|world_pos" := Float (T2 [[2; 0; 1]]%R) ]>
       examples.plate_inputs) false examples.plate_model
  = (Err (KeyError "node_type"), examples.plate_model).
Proof.
  split; [|split].
  - apply (proj1 (plate_missing_input 9 1 3 (fun _ => Err RuntimeError) ∅
                    false examples.plate_model)).
    reflexivity.
  - apply (proj1 (proj2 (plate_missing_input 9 1 3
                    (fun _ => Err RuntimeError) examples.plate_inputs
                    false examples.plate_model)) (T2 [[2; 0; 0]]%R)).
    + reflexivity.
    + reflexivity.
  - apply (proj2 (proj2 (plate_missing_input 9 1 3
                    (fun _ => Err RuntimeError)
                    (<[ "target|world_pos" := Float (T2 [[2; 0; 1]]%R) ]>
                       examples.plate_inputs)
                    false examples.plate_model))
             (T2 [[2; 0; 0]]%R) (T2 [[2; 0; 1]]%R)).
    + reflexivity.
    + reflexivity.
    + reflexivity.
Defined.

(** X14. The two assertions of [unsorted_segment_operation] on
    rank-1 segment indices, which come before the operation name is
    looked at.  The first only asks that the number of indices occurs
    among the dimensions of the data: if it does not, the call ends in
    an [AssertionError] with the message about a prefix.  If it does,
    but differs from the number of rows (it equals the number of columns,
    say), the repeated indices have another shape than the data and the
    call ends in an [AssertionError] with the message about equal
    shapes. *)
Theorem segment_shape_asserts (data : tensor) (sv : list nat)
    (num_segments : nat) (operation : string) :
  (length sv ∉ size data ->
   deform_model.unsorted_segment_operation data (deform_model.I1 sv)
     num_segments operation
   = Err (AssertionError
            "segment_ids.shape should be a prefix of data.shape")) /\
  (forall m, data = T2 m -> length sv ∈ size data ->
   length sv <> length m ->
   deform_model.unsorted_segment_operation data (deform_model.I1 sv)
     num_segments operation
   = Err (AssertionError
            "data.shape and segment_ids.shape should be equal")).
Proof.
  unfold deform_model.unsorted_segment_operation. split.
  - intros Hnot. cbn [deform_model.ids_shape forallb].
    rewrite (bool_decide_eq_false_2 _ Hnot). reflexivity.
  - intros m -> Hin Hne. cbn [deform_model.ids_shape forallb].
    rewrite (bool_decide_eq_true_2 _ Hin).
    cbn [andb deform_model.assert]. rewrite bind_ok.
    rewrite bool_decide_eq_false_2; [reflexivity|].
    cbn [size deform_model.ids_shape]. rewrite length_map.
    intros H. injection H as H _. congruence.
Qed.

Lemma segment_shape_asserts_witness :
  deform_model.unsorted_segment_operation (T2 [[1; 2]; [3; 4]; [5; 6]]%R)
    (deform_model.I1 [0; 0; 1; 1]) 2 "sum"
  = Err (AssertionError
           "segment_ids.shape should be a prefix of data.shape") /\
  deform_model.unsorted_segment_operation (T2 [[1; 2]; [3; 4]; [5; 6]]%R)
    (deform_model.I1 [0; 1]) 2 "sum"
  = Err (AssertionError
           "data.shape and segment_ids.shape should be equal").
Proof.
  split.
  - apply (proj1 (segment_shape_asserts (T2 [[1; 2]; [3; 4]; [5; 6]]%R)
                    [0; 0; 1; 1] 2 "sum")).
    cbn. intros H.
    repeat (apply elem_of_cons in H as [H|H]; [discriminate|]).
    by apply elem_of_nil in H.
  - apply (proj2 (segment_shape_asserts (T2 [[1; 2]; [3; 4]; [5; 6]]%R)
                    [0; 1] 2 "sum") [[1; 2]; [3; 4]; [5; 6]]%R).
    + reflexivity.
    + cbn. apply list_elem_of_further, list_elem_of_here.
    + cbn. lia.
Defined.

(** ** The cloth model *)

Section cloth_graph.
Context {library_add : TensorAdd}.
Variable NodeType_SIZE : nat.
Variable triangles_to_edges : value -> result (list nat * list nat).

Lemma cloth_graph_features (inputs : gmap string value)
    (dw dm : nat) (wp pwp mp : list (list R)) (nt : list (list Z))
    (types : list Z) (cells : value) (senders receivers : list nat) :
  inputs !! "world_pos" = Some (Float (T2 wp)) ->
  inputs !! "prev|world_pos" = Some (Float (T2 pwp)) ->
  inputs !! "node_type" = Some (Int nt) ->
  inputs !! "cells" = Some cells ->
  inputs !! "mesh_pos" = Some (Float (T2 mp)) ->
  shape (length wp) dw wp -> shape (length wp) dw pwp ->
  shape (length wp) dm mp ->
  length nt = length wp ->
  column0 nt = Ok types ->
  Forall (fun z => (0 <= z < Z.of_nat NodeType_SIZE)%Z) types ->
  triangles_to_edges cells = Ok (senders, receivers) ->
  length receivers = length senders ->
  Forall (fun i => i < length wp) senders ->
  Forall (fun i => i < length wp) receivers ->
  exists nf ef,
    cloth_model.graph_features NodeType_SIZE triangles_to_edges inputs
    = Ok (T2 nf, T2 ef, senders, receivers, T2 wp, T2 mp) /\
    shape (length wp) (dw + NodeType_SIZE) nf /\
    shape (length senders) (dw + 1 + dm + 1) ef.
Proof.
  intros Hwp Hpwp Hnt Hcells Hmp Swp Spwp Smp Hlen Htypes Hrange Ht2e
    Hlr Hs Hr.
  unfold cloth_model.graph_features.
  rewrite (getitem_lookup _ _ _ Hwp), !bind_ok. cbn [as_float].
  rewrite !bind_ok.
  rewrite (getitem_lookup _ _ _ Hpwp), !bind_ok. cbn [as_float].
  rewrite !bind_ok.
  rewrite (getitem_lookup _ _ _ Hnt), !bind_ok. cbn [as_int].
  rewrite !bind_ok.
  destruct (sub_shape _ _ wp pwp Swp Spwp) as [Hvel Svel].
  rewrite Hvel, bind_ok.
  rewrite Htypes, bind_ok.
  destruct (one_hot_shape types NodeType_SIZE Hrange) as (oh & Hoh & Soh).
  rewrite Hoh, bind_ok.
  rewrite (column0_length _ _ Htypes), Hlen in Soh.
  destruct (cat2_shape _ _ _ _ _ Svel Soh) as [Hnf Snf].
  cbn [cat foldl]. rewrite bind_ok, Hnf, bind_ok.
  rewrite (getitem_lookup _ _ _ Hcells), bind_ok, Ht2e, bind_ok.
  rewrite (getitem_lookup _ _ _ Hmp), !bind_ok. cbn [as_float].
  rewrite !bind_ok.
  destruct (index_select_shape _ _ wp senders Swp Hs) as (ws & -> & Sws).
  rewrite bind_ok.
  destruct (index_select_shape _ _ wp receivers Swp Hr) as (wr & -> & Swr).
  rewrite bind_ok. rewrite Hlr in Swr.
  destruct (sub_shape _ _ ws wr Sws Swr) as [Hrw Srw].
  rewrite Hrw, bind_ok.
  destruct (index_select_shape _ _ mp senders Smp Hs) as (ms & -> & Sms).
  rewrite bind_ok.
  destruct (index_select_shape _ _ mp receivers Smp Hr) as (mr & -> & Smr).
  rewrite bind_ok. rewrite Hlr in Smr.
  destruct (sub_shape _ _ ms mr Sms Smr) as [Hrm Srm].
  rewrite Hrm, bind_ok.
  destruct (norm_shape _ _ _ Srw) as [-> Snw].
  destruct (norm_shape _ _ _ Srm) as [-> Snm].
  destruct (cat2_shape _ _ _ _ _ Srw Snw) as [Hc1 Sc1].
  destruct (cat2_shape _ _ _ _ _ Sc1 Srm) as [Hc2 Sc2].
  destruct (cat2_shape _ _ _ _ _ Sc2 Snm) as [Hc3 Sc3].
  cbn [foldl]. rewrite bind_ok, Hc1, bind_ok, Hc2, bind_ok, Hc3, bind_ok.
  eexists _, _. split; [reflexivity|]. split; assumption.
Qed.

(** X2. The cloth model never gets through a pass.  [_build_graph]
    calls the edge normalizer, and every call of a normalizer raises: at
    the guard when the event counter has no truth value, in
    [_accumulate] at [batched_data.size().tolist()] when it is entered,
    in [_mean] at [torch.maximum(self._acc_count, 1.)] otherwise.  So for
    all inputs, in training and in evaluation mode, whatever
    [Tensor.add], [triangles_to_edges] and the learned model do,
    [_build_graph] and [forward] end in an exception and leave the model
    as it was; the learned model and [_update] are never reached. *)
Theorem cloth_forward_never_returns (inputs : gmap string value)
    (is_training : bool) (self : cloth_model.Model) :
  (exists e,
     cloth_model._build_graph NodeType_SIZE triangles_to_edges inputs
       is_training self = (Err e, self)) /\
  (exists e,
     cloth_model.forward NodeType_SIZE triangles_to_edges inputs
       is_training self = (Err e, self)).
Proof.
  assert (raises (cloth_model._build_graph NodeType_SIZE triangles_to_edges
                    inputs is_training)) as Hbuild.
  { unfold cloth_model._build_graph.
    apply raises_bind_r; [apply preserves_reading|].
    intros [[[[[nf ef] sd] rc] wp] mp].
    apply raises_bind_l, raises_on_attr; [by intros []|].
    apply (call_raises ef (ABool is_training)). }
  split; [apply Hbuild|].
  unfold cloth_model.forward. by apply raises_bind_l.
Qed.

(** X3. A pass of the cloth model on inputs that fit together: [N]
    world, previous and mesh positions with [dw], [dw] and [dm]
    coordinates, a node type below [NodeType.SIZE] per node, and mesh
    edges between existing nodes as [common.triangles_to_edges] returns
    them.  The statements of [_build_graph] before the first normalizer
    call succeed, with [N] rows of [dw + NodeType.SIZE] node features
    and [dw + 1 + dm + 1] features per mesh edge.  Then the edge
    normalizer is called with [is_training] as [accumulate]: the
    evaluation pass raises [TypeError] (from [_mean]), and the training
    pass, when the event counter of the edge normalizer is below its
    cap, raises [AttributeError] (from [_accumulate]); both leave the
    model as it was. *)
Theorem cloth_pass_raises (self : cloth_model.Model)
    (inputs : gmap string value)
    (dw dm : nat) (wp pwp mp : list (list R)) (nt : list (list Z))
    (types : list Z) (cells : value) (senders receivers : list nat) :
  inputs !! "world_pos" = Some (Float (T2 wp)) ->
  inputs !! "prev|world_pos" = Some (Float (T2 pwp)) ->
  inputs !! "node_type" = Some (Int nt) ->
  inputs !! "cells" = Some cells ->
  inputs !! "mesh_pos" = Some (Float (T2 mp)) ->
  shape (length wp) dw wp -> shape (length wp) dw pwp ->
  shape (length wp) dm mp ->
  length nt = length wp ->
  column0 nt = Ok types ->
  Forall (fun z => (0 <= z < Z.of_nat NodeType_SIZE)%Z) types ->
  triangles_to_edges cells = Ok (senders, receivers) ->
  length receivers = length senders ->
  Forall (fun i => i < length wp) senders ->
  Forall (fun i => i < length wp) receivers ->
  (exists nf ef,
     cloth_model.graph_features NodeType_SIZE triangles_to_edges inputs
     = Ok (T2 nf, T2 ef, senders, receivers, T2 wp, T2 mp) /\
     shape (length wp) (dw + NodeType_SIZE) nf /\
     shape (length senders) (dw + 1 + dm + 1) ef) /\
  cloth_model.forward NodeType_SIZE triangles_to_edges inputs false self
  = (Err TypeError, self) /\
  (forall k : R,
     _num_accumulations (cloth_model._edge_normalizer self) = T1 [k] ->
     (k < IZR (_max_accumulations (cloth_model._edge_normalizer self)))%R ->
     cloth_model.forward NodeType_SIZE triangles_to_edges inputs true self
     = (Err AttributeError, self)).
Proof.
  intros Hwp Hpwp Hnt Hcells Hmp Swp Spwp Smp Hlen Htypes Hrange Ht2e
    Hlr Hs Hr.
  destruct (cloth_graph_features inputs
              dw dm wp pwp mp nt types cells senders receivers)
    as (nf & ef & Hfeat & Snf & Sef); try assumption.
  split; [by exists nf, ef|].
  assert (forall (is_training : bool) e,
            __call__ (T2 ef) (ABool is_training)
              (cloth_model._edge_normalizer self)
            = (Err e, cloth_model._edge_normalizer self) ->
            cloth_model.forward NodeType_SIZE triangles_to_edges inputs
              is_training self = (Err e, self)) as Hpass.
  { intros is_training e Hcall.
    assert (cloth_model._build_graph NodeType_SIZE triangles_to_edges
              inputs is_training self = (Err e, self)) as Hbuild.
    { unfold cloth_model._build_graph.
      rewrite (stateful_bind_run _ _ self
                 (T2 nf, T2 ef, senders, receivers, T2 wp, T2 mp) self)
        by (unfold reading; by rewrite Hfeat).
      cbv beta iota.
      unfold mbind at 1, stateful_bind, on_attr. cbn [call].
      rewrite Hcall. by destruct self. }
    unfold cloth_model.forward.
    unfold mbind at 1, stateful_bind. by rewrite Hbuild. }
  split.
  - apply Hpass. by apply call_evaluation_raises.
  - intros k Hk Hcap. apply Hpass. by apply (call_below_cap _ _ k).
Qed.

End cloth_graph.

Lemma cloth_pass_raises_witness :
  (exists nf ef,
     cloth_model.graph_features 9 scenarios.triangle_edges
       scenarios.triangle_inputs
     = Ok (T2 nf, T2 ef, [0; 1; 2; 1; 2; 0], [1; 2; 0; 0; 1; 2],
           T2 [[0; 0; 0]; [1; 0; 0]; [0; 1; 0]]%R,
           T2 [[0; 0]; [1; 0]; [0; 1]]%R) /\
     shape 3 12 nf /\ shape 6 7 ef) /\
  @cloth_model.forward documented_add 9 scenarios.triangle_edges
    scenarios.triangle_inputs false examples.flag_model
  = (Err TypeError, examples.flag_model) /\
  @cloth_model.forward documented_add 9 scenarios.triangle_edges
    scenarios.triangle_inputs true examples.flag_model
  = (Err AttributeError, examples.flag_model).
Proof.
  destruct (@cloth_pass_raises documented_add 9 scenarios.triangle_edges
              examples.flag_model scenarios.triangle_inputs 3 2
              [[0; 0; 0]; [1; 0; 0]; [0; 1; 0]]%R
              [[0; 0; 0]; [0.9; 0; 0]; [0; 1; 0]]%R
              [[0; 0]; [1; 0]; [0; 1]]%R
              [[0%Z]; [0%Z]; [3%Z]] [0%Z; 0%Z; 3%Z]
              (Int [[0%Z; 1%Z; 2%Z]])
              [0; 1; 2; 1; 2; 0] [1; 2; 0; 0; 1; 2])
    as (Hfeatures & Heval & Htrain).
  - reflexivity.
  - reflexivity.
  - reflexivity.
  - reflexivity.
  - reflexivity.
  - split; [reflexivity|repeat constructor].
  - split; [reflexivity|repeat constructor].
  - split; [reflexivity|repeat constructor].
  - reflexivity.
  - reflexivity.
  - repeat constructor; lia.
  - reflexivity.
  - reflexivity.
  - repeat constructor; cbn; lia.
  - repeat constructor; cbn; lia.
  - split; [exact Hfeatures|]. split; [exact Heval|].
    apply (Htrain 0%R).
    + reflexivity.
    + cbn. unfold default_max_accumulations. lra.
Defined.

Section missing_keys.
Context {library_add : TensorAdd}.

(** X9. [forward] of the cloth model reads its inputs in the order
    world_pos, prev|world_pos, node_type.  The first of them that is
    missing ends the pass, in either mode, in a [KeyError] naming it, and
    the model is left as it was. *)
Theorem cloth_missing_input (NodeType_SIZE : nat)
    (triangles_to_edges : value -> result (list nat * list nat))
    (inputs : gmap string value) (is_training : bool)
    (self : cloth_model.Model) :
  (inputs !! "world_pos" = None ->
   cloth_model.forward NodeType_SIZE triangles_to_edges inputs is_training
     self = (Err (KeyError "world_pos"), self)) /\
  (forall wp, inputs !! "world_pos" = Some (Float wp) ->
   inputs !! "prev|world_pos" = None ->
   cloth_model.forward NodeType_SIZE triangles_to_edges inputs is_training
     self = (Err (KeyError "prev|world_pos"), self)) /\
  (forall wp pwp, inputs !! "world_pos" = Some (Float wp) ->
   inputs !! "prev|world_pos" = Some (Float pwp) ->
   inputs !! "node_type" = None ->
   cloth_model.forward NodeType_SIZE triangles_to_edges inputs is_training
     self = (Err (KeyError "node_type"), self)).
Proof.
  unfold cloth_model.forward, cloth_model._build_graph,
    cloth_model.graph_features, reading, mbind at 1 2, stateful_bind,
    getitem.
  split; [|split].
  - intros ->. reflexivity.
  - intros wp -> ->. reflexivity.
  - intros wp pwp -> -> ->. reflexivity.
Qed.

End missing_keys.

Lemma cloth_missing_input_witness :
  @cloth_model.forward documented_add 9 scenarios.triangle_edges ∅ true
    examples.flag_model
  = (Err (KeyError "world_pos"), examples.flag_model) /\
  @cloth_model.forward documented_add 9 scenarios.triangle_edges
    {[ "world_pos" := Float (T2 [[0; 0; 0]]%R) ]} true examples.flag_model
  = (Err (KeyError "prev|world_pos"), examples.flag_model) /\
  @cloth_model.forward documented_add 9 scenarios.triangle_edges
    examples.flag_inputs true examples.flag_model
  = (Err (KeyError "node_type"), examples.flag_model).
Proof.
  split; [|split].
  - apply (proj1 (cloth_missing_input 9 scenarios.triangle_edges ∅ true
                    examples.flag_model)).
    reflexivity.
  - apply (proj1 (proj2 (cloth_missing_input 9 scenarios.triangle_edges
                    {[ "world_pos" := Float (T2 [[0; 0; 0]]%R) ]} true
                    examples.flag_model)) (T2 [[0; 0; 0]]%R)).
    + reflexivity.
    + reflexivity.
  - apply (proj2 (proj2 (cloth_missing_input 9 scenarios.triangle_edges
                    examples.flag_inputs true examples.flag_model))
             (T2 [[0; 0; 0]; [1; 0; 0]]%R)
             (T2 [[0; 0; 0]; [0.9; 0; 0]]%R)).
    + reflexivity.
    + reflexivity.
    + reflexivity.
Defined.

Section cloth_frame.
Context {library_add : TensorAdd}.

Lemma cloth_frame_bind {A B} (m : stateful cloth_model.Model A)
    (f : A -> stateful cloth_model.Model B) :
  (forall s, cloth_model.same_but_input_normalizers (m s).2 s) ->
  (forall a s, cloth_model.same_but_input_normalizers (f a s).2 s) ->
  forall s, cloth_model.same_but_input_normalizers ((m ≫= f) s).2 s.
Proof.
  intros Hm Hf s. unfold mbind, stateful_bind.
  specialize (Hm s). destruct (m s) as [[a|e] s1]; cbn in Hm.
  - specialize (Hf a s1). unfold cloth_model.same_but_input_normalizers in *.
    destruct Hm as (?&?&?&?&?&?&?), Hf as (?&?&?&?&?&?&?).
    repeat split; congruence.
  - exact Hm.
Qed.

Lemma cloth_frame_reading {A} (f : cloth_model.Model -> result A) s :
  cloth_model.same_but_input_normalizers (reading f s).2 s.
Proof. repeat split. Qed.

(** X11. What a pass of the cloth model can change.  Whatever the
    inputs, the mode, [Tensor.add], [triangles_to_edges] and the learned
    model, and whether [forward] returns or raises, the model afterwards
    differs from the model before at most in its node and edge
    normalizers: the output normalizer, which only [_update] reads, the
    parameters, the core model and its name, the message-passing
    settings and the learned model are as they were. *)
Theorem cloth_forward_frame (NodeType_SIZE : nat)
    (triangles_to_edges : value -> result (list nat * list nat))
    (inputs : gmap string value) (is_training : bool)
    (self : cloth_model.Model) :
  let after :=
    (cloth_model.forward NodeType_SIZE triangles_to_edges inputs is_training
       self).2 in
  cloth_model._params after = cloth_model._params self /\
  cloth_model._output_normalizer after
  = cloth_model._output_normalizer self /\
  cloth_model.core_model_name after = cloth_model.core_model_name self /\
  cloth_model.core_model after = cloth_model.core_model self /\
  cloth_model.message_passing_steps after
  = cloth_model.message_passing_steps self /\
  cloth_model.message_passing_aggregator after
  = cloth_model.message_passing_aggregator self /\
  cloth_model.learned_model after = cloth_model.learned_model self.
Proof.
  change (cloth_model.same_but_input_normalizers
            (cloth_model.forward NodeType_SIZE triangles_to_edges inputs
               is_training self).2 self).
  revert self. unfold cloth_model.forward.
  apply cloth_frame_bind.
  - unfold cloth_model._build_graph.
    apply cloth_frame_bind; [apply cloth_frame_reading|].
    intros [[[[[nf ef] sd] rc] wp] mp].
    apply cloth_frame_bind.
    { intros s. unfold on_attr. destruct (call _ _) as [r n].
      repeat split. }
    intros ef'. apply cloth_frame_bind; [apply cloth_frame_reading|].
    intros hub. apply cloth_frame_bind.
    { intros s. unfold on_attr. destruct (call _ _) as [r n].
      repeat split. }
    intros nf' s. destruct hub; repeat split.
  - intros g s. destruct is_training; apply cloth_frame_reading.
Qed.

End cloth_frame.

(** ** Checkpoints *)

Lemma append_suffix_inj (path a b : string) :
  path +:+ a = path +:+ b -> a = b.
Proof.
  induction path as [|c path IH]; cbn; [done|].
  intros H. injection H as H. by apply IH.
Qed.

Ltac other_file :=
  let H := fresh in
  intros H; apply append_suffix_inj in H; discriminate H.

Ltac read_file :=
  unfold serialization.save;
  repeat (rewrite lookup_insert_ne by other_file);
  rewrite lookup_insert_eq.

(** X15. [load_model] after [save_model] under the same path, for the
    cloth model: all four files are found, whatever the file system held
    before, and the loading model ends up with the learned model and the
    output, edge and node normalizers of the saved one; its parameters,
    core model and message-passing settings are its own as before. *)
Theorem cloth_save_then_load (self other : cloth_model.Model)
    (path : string)
    (fs : gmap string (serialization.object (cloth_model.graph -> result tensor))) :
  exists loaded,
    cloth_model.load_model (cloth_model.save_model self path fs) path other
    = (serialization.Loaded, loaded) /\
    cloth_model.learned_model loaded = cloth_model.learned_model self /\
    cloth_model._output_normalizer loaded
    = cloth_model._output_normalizer self /\
    cloth_model._edge_normalizer loaded = cloth_model._edge_normalizer self /\
    cloth_model._node_normalizer loaded = cloth_model._node_normalizer self /\
    cloth_model._params loaded = cloth_model._params other /\
    cloth_model.core_model_name loaded = cloth_model.core_model_name other /\
    cloth_model.core_model loaded = cloth_model.core_model other /\
    cloth_model.message_passing_steps loaded
    = cloth_model.message_passing_steps other /\
    cloth_model.message_passing_aggregator loaded
    = cloth_model.message_passing_aggregator other.
Proof.
  eexists. split.
  - unfold cloth_model.load_model, cloth_model.save_model,
      serialization.and_then, serialization.load_learned,
      serialization.load_normalizer.
    do 4 read_file. reflexivity.
  - repeat split.
Qed.

(** X16. [load_model] of the cloth model is not all-or-nothing.  If
    the file of the learned model is missing, the call ends with
    [FileNotFoundError] for that file and the model as it was; if that
    file holds a learned model and the file of the output normalizer is
    missing, the call ends with [FileNotFoundError] for the second file
    and the model already holds the loaded learned model. *)
Theorem cloth_load_stops_at_missing (self : cloth_model.Model)
    (path : string)
    (fs : gmap string (serialization.object (cloth_model.graph -> result tensor)))
    (l : cloth_model.graph -> result tensor) :
  (fs !! (path +:+ "_learned_model.pth") = None ->
   cloth_model.load_model fs path self
   = (serialization.FileNotFoundError (path +:+ "_learned_model.pth"),
      self)) /\
  (fs !! (path +:+ "_learned_model.pth") = Some (serialization.OLearned l) ->
   fs !! (path +:+ "_output_normalizer.pth") = None ->
   cloth_model.load_model fs path self
   = (serialization.FileNotFoundError (path +:+ "_output_normalizer.pth"),
      cloth_model.set_learned_model l self)).
Proof.
  unfold cloth_model.load_model, serialization.and_then,
    serialization.load_learned, serialization.load_normalizer.
  split.
  - intros ->. reflexivity.
  - intros -> ->. reflexivity.
Qed.

Lemma cloth_load_stops_at_missing_witness :
  let fs : gmap string
             (serialization.object (cloth_model.graph -> result tensor)) :=
    {[ "run_learned_model.pth" :=
         serialization.OLearned (fun _ => Err RuntimeError) ]} in
  cloth_model.load_model ∅ "run" examples.flag_model
  = (serialization.FileNotFoundError "run_learned_model.pth",
     examples.flag_model) /\
  cloth_model.load_model fs "run" examples.flag_model
  = (serialization.FileNotFoundError "run_output_normalizer.pth",
     cloth_model.set_learned_model (fun _ => Err RuntimeError)
       examples.flag_model).
Proof.
  intros fs. split.
  - apply (proj1 (cloth_load_stops_at_missing examples.flag_model "run" ∅
                    (fun _ => Err RuntimeError))).
    reflexivity.
  - apply (proj2 (cloth_load_stops_at_missing examples.flag_model "run" fs
                    (fun _ => Err RuntimeError))).
    + reflexivity.
    + reflexivity.
Defined.

(** X17. [load_model] after [save_model] under the same path, for the
    plate model: the learned model and the output, mesh-edge, world-edge
    and node normalizers are those of the saved model.  The
    node-dynamic normalizer is not brought back: after loading it is the
    one the loading model had, whatever the saved model's was, as are
    the parameters and the core model. *)
Theorem plate_save_then_load (self other : deform_model.Model)
    (path : string)
    (fs : gmap string (serialization.object deform_model.learned)) :
  exists loaded,
    deform_model.load_model (deform_model.save_model self path fs) path other
    = (serialization.Loaded, loaded) /\
    deform_model.learned_model loaded = deform_model.learned_model self /\
    deform_model._output_normalizer loaded
    = deform_model._output_normalizer self /\
    deform_model._mesh_edge_normalizer loaded
    = deform_model._mesh_edge_normalizer self /\
    deform_model._world_edge_normalizer loaded
    = deform_model._world_edge_normalizer self /\
    deform_model._node_normalizer loaded
    = deform_model._node_normalizer self /\
    deform_model._node_dynamic_normalizer loaded
    = deform_model._node_dynamic_normalizer other /\
    deform_model._params loaded = deform_model._params other /\
    deform_model.core_model loaded = deform_model.core_model other.
Proof.
  eexists. split.
  - unfold deform_model.load_model, deform_model.save_model,
      serialization.and_then, serialization.load_learned,
      serialization.load_normalizer.
    do 5 read_file. reflexivity.
  - repeat split.
Qed.
